(** * manage_ext.py: the build, clean and install subcommands

    A shallow embedding of [src/manage_ext.py], the extension module that
    adds [build] and [clean] to a provider's [manage.py] and overrides
    [install].  Python code is embedded as functions in a small
    state-and-exception monad: the state is the observable trace of the
    process (lines printed, children spawned, log records, file-system
    calls) together with the two directories the install step touches. *)

From Stdlib Require Import ZArith Bool Ascii String.
From stdpp Require Import base option list strings gmap fin_maps.

Local Open Scope Z_scope.
Local Open Scope string_scope.
Local Open Scope list_scope.

(** ** Python values and exceptions *)

(** The values that flow through the embedded code: [None], [int], [str].
    [setup] stores its keyword arguments in a dict; the ones read
    here ([build_cmd], [clean_cmd]) are strings or missing. *)
Inductive pyval :=
| PyNone
| PyInt (n : Z)
| PyStr (s : string).

(** The exceptions the embedded code and the library calls it makes raise. *)
Inductive exn :=
| ValueError (msg : string)
| KeyError (key : string)
| FileNotFoundError (path : string)
| NotADirectoryError (path : string)
| IsADirectoryError (path : string)
| PermissionError (path : string)
| FileExistsError (path : string)
| OSError (path : string).

(** Both [IOError] and every file-system error above are [OSError] in
    Python 3; [ValueError] and [KeyError] are not.  This is the test
    [except (IOError, OSError)] performs. *)
Definition is_OSError (e : exn) : bool :=
  match e with
  | ValueError _ | KeyError _ => false
  | _ => true
  end.

Inductive outcome (A : Type) :=
| Returned (a : A)
| Raised (e : exn).
Arguments Returned {A} a.
Arguments Raised {A} e.

(** [raise SystemExit(v)]: [None] is exit status 0; an integer that fits
    a C long gives its low byte, any other integer 255; a string is
    printed and gives status 1. *)
Definition exit_status (v : pyval) : Z :=
  match v with
  | PyNone => 0
  | PyInt n =>
      if ((- 2 ^ 63 <=? n)%Z && (n <? 2 ^ 63)%Z) then n mod 256 else 255
  | PyStr _ => 1
  end.

(** ** String helpers: [str.endswith], [str.startswith], [os.path.join] *)

Definition startswith (s pre : string) : bool := String.prefix pre s.

(** [s.endswith(suf)]: some tail of [s] is [suf]. *)
Fixpoint endswith (s suf : string) : bool :=
  String.eqb s suf
  || match s with
     | EmptyString => false
     | String _ rest => endswith rest suf
     end.

(** [posixpath.join(a, b)] for one component [b]. *)
Definition os_path_join (a b : string) : string :=
  if startswith b "/" then b
  else if String.eqb a "" || endswith a "/" then a +:+ b
  else a +:+ "/" +:+ b.

(** [posixpath.basename(p)]: what follows the last slash.  [tail] is the
    text read since the last slash seen. *)
Fixpoint basename_from (p tail : string) : string :=
  match p with
  | EmptyString => tail
  | String c rest =>
      if Ascii.eqb c "/"%char then basename_from rest ""
      else basename_from rest (tail +:+ String c "")
  end.

Definition os_path_basename (p : string) : string := basename_from p "".

(** ** [shlex.split]

    [shlex.split(s)] builds [shlex(s, posix=True)] with
    [whitespace_split = True] and no comment characters, and collects the
    tokens [read_token] yields.  The lexer state ([self.state]) is one of
    [' '], ['a'], an opening quote character, or the escape character. *)
Module shlex.

Inductive lexstate :=
| StWhitespace            (* ' ' *)
| StWord                  (* 'a' *)
| StQuote (q : ascii)     (* the quote that was opened *)
| StEscape.               (* '\\' *)

Definition escape_char : ascii := "\"%char.
Definition squote : ascii := "'"%char.
Definition dquote : ascii := "034"%char.

(* whitespace = ' \t\r\n' *)
Definition in_whitespace (c : ascii) : bool :=
  Ascii.eqb c " "%char || Ascii.eqb c "009"%char
  || Ascii.eqb c "013"%char || Ascii.eqb c "010"%char.

(* quotes: the single and the double quote *)
Definition in_quotes (c : ascii) : bool :=
  Ascii.eqb c squote || Ascii.eqb c dquote.

(* escape = '\\' *)
Definition in_escape (c : ascii) : bool := Ascii.eqb c escape_char.

(* escapedquotes: the double quote only *)
Definition in_escapedquotes (c : ascii) : bool := Ascii.eqb c dquote.

Definition snoc (token : string) (c : ascii) : string :=
  token +:+ String c "".

Definition nonempty (token : string) : bool := negb (String.eqb token "").

(** [escapedstate in self.quotes] *)
Definition state_in_quotes (st : lexstate) : bool :=
  match st with
  | StQuote q => in_quotes q
  | _ => false
  end.

(** [nextchar != escapedstate], for an [escapedstate] that is a quote. *)
Definition differs_from_state (c : ascii) (st : lexstate) : bool :=
  match st with
  | StQuote q => negb (Ascii.eqb c q)
  | _ => true
  end.

(** The [while True] loop of [read_token], run over the whole input:
    a [break] with a token emits it and starts the next [read_token] call
    with [token = ''], [quoted = False], [escapedstate = ' '] and the same
    [self.state]; end of input is [nextchar == '']. *)
Fixpoint read_tokens (input : string) (state : lexstate) (token : string)
    (quoted : bool) (escapedstate : lexstate) : outcome (list string) :=
  let emit rest st :=
    match read_tokens rest st "" false StWhitespace with
    | Returned toks => Returned (token :: toks)
    | Raised e => Raised e
    end in
  match input with
  | EmptyString =>
      match state with
      | StWhitespace | StWord =>
          (* self.state = None; break; an unquoted '' is the eof token *)
          if negb quoted && String.eqb token "" then Returned []
          else Returned [token]
      | StQuote _ => Raised (ValueError "No closing quotation")
      | StEscape => Raised (ValueError "No escaped character")
      end
  | String nextchar rest =>
      match state with
      | StWhitespace =>
          if in_whitespace nextchar then
            if nonempty token || quoted then emit rest StWhitespace
            else read_tokens rest StWhitespace token quoted escapedstate
          else if in_escape nextchar then
            read_tokens rest StEscape token quoted StWord
          else if in_quotes nextchar then
            read_tokens rest (StQuote nextchar) token quoted escapedstate
          else
            read_tokens rest StWord (String nextchar "") quoted escapedstate
      | StQuote q =>
          if Ascii.eqb nextchar q then
            read_tokens rest StWord token true escapedstate
          else if in_escape nextchar && in_escapedquotes q then
            read_tokens rest StEscape token true (StQuote q)
          else
            read_tokens rest (StQuote q) (snoc token nextchar) true
              escapedstate
      | StEscape =>
          let token' :=
            if state_in_quotes escapedstate
               && negb (Ascii.eqb nextchar escape_char)
               && differs_from_state nextchar escapedstate
            then snoc token escape_char else token in
          read_tokens rest escapedstate (snoc token' nextchar) quoted
            escapedstate
      | StWord =>
          if in_whitespace nextchar then
            if nonempty token || quoted then emit rest StWhitespace
            else read_tokens rest StWhitespace token quoted escapedstate
          else if in_quotes nextchar then
            read_tokens rest (StQuote nextchar) token quoted escapedstate
          else if in_escape nextchar then
            read_tokens rest StEscape token quoted StWord
          else
            read_tokens rest StWord (snoc token nextchar) quoted
              escapedstate
      end
  end.

Definition split (s : string) : outcome (list string) :=
  read_tokens s StWhitespace "" false StWhitespace.

End shlex.

(** ** The file system

    Permission bits are read for the calling process, which is the
    superuser or stands in one relation (owner, member of the group,
    other) to the files of the tree it installs and of the destination. *)

Record file := { f_mode : Z; f_data : string }.

Inductive node :=
| RegFile (f : file)
| Directory (mode : Z) (names : list string).

Inductive caller := Superuser | Owner | GroupMember | Other.

(** The kernel's answer for a regular file with permission bits [mode]:
    the superuser reads and writes any file and executes one with some
    execute bit; anyone else is answered by the bits of their class. *)
Definition may_read (who : caller) (mode : Z) : bool :=
  match who with
  | Superuser => true
  | Owner => Z.testbit mode 8          (* 0o400 *)
  | GroupMember => Z.testbit mode 5    (* 0o040 *)
  | Other => Z.testbit mode 2          (* 0o004 *)
  end.

Definition may_write (who : caller) (mode : Z) : bool :=
  match who with
  | Superuser => true
  | Owner => Z.testbit mode 7          (* 0o200 *)
  | GroupMember => Z.testbit mode 4    (* 0o020 *)
  | Other => Z.testbit mode 1          (* 0o002 *)
  end.

Definition may_exec (who : caller) (mode : Z) : bool :=
  match who with
  | Superuser => Z.testbit mode 6 || Z.testbit mode 3 || Z.testbit mode 0
  | Owner => Z.testbit mode 6          (* 0o100 *)
  | GroupMember => Z.testbit mode 3    (* 0o010 *)
  | Other => Z.testbit mode 0          (* 0o001 *)
  end.

(** The same for searching a directory, which the superuser may always. *)
Definition may_search (who : caller) (mode : Z) : bool :=
  match who with
  | Superuser => true
  | _ => may_exec who mode
  end.

(** Why nothing is at a path: its parent is there and the caller may or
    may not create entries in it, or the parent is missing too and the
    caller can ([creatable]) or cannot make the directories above. *)
Inductive parent_state :=
| ParentWritable
| ParentReadOnly
| ParentMissing (creatable : bool).

(** What is at [dst_dir], the one path the install step writes to.  A
    directory is [writable] when the caller may create entries in it. *)
Inductive dst_state :=
| DstAbsent (parent : parent_state)
| DstFile (f : file)
| DstDir (writable : bool) (children : gmap string node).

(** What [os.makedirs(path, exist_ok=True)] does to the destination: a
    directory that exists is left alone, a regular file in the way is an
    error, a missing directory is created when that is possible. *)
Definition makedirs_at (path : string) (d : dst_state) : outcome dst_state :=
  match d with
  | DstDir _ _ => Returned d
  | DstFile _ => Raised (FileExistsError path)
  | DstAbsent ParentWritable | DstAbsent (ParentMissing true) =>
      Returned (DstDir true ∅)
  | DstAbsent ParentReadOnly | DstAbsent (ParentMissing false) =>
      Raised (PermissionError path)
  end.

(** Opening the target of [shutil.copy(src, dst_path)] for writing and
    filling it with [f]: the target is the entry [name] (the base name of
    [src]) when [dst_path] is a directory, and [dst_path] itself
    otherwise.  An existing file is overwritten when the caller may write
    it; a new entry needs a directory the caller may write, and a path
    whose parent is missing cannot be opened at all. *)
Definition write_target (who : caller) (dst_path name : string) (f : file)
    (d : dst_state) : outcome dst_state :=
  match d with
  | DstDir writable children =>
      let target := os_path_join dst_path name in
      match children !! name with
      | Some (Directory _ _) => Raised (IsADirectoryError target)
      | Some (RegFile g) =>
          if may_write who (f_mode g)
          then Returned (DstDir writable (<[name := RegFile f]> children))
          else Raised (PermissionError target)
      | None =>
          if writable
          then Returned (DstDir writable (<[name := RegFile f]> children))
          else Raised (PermissionError target)
      end
  | DstFile g =>
      if may_write who (f_mode g) then Returned (DstFile f)
      else Raised (PermissionError dst_path)
  | DstAbsent ParentWritable => Returned (DstFile f)
  | DstAbsent ParentReadOnly => Raised (PermissionError dst_path)
  | DstAbsent (ParentMissing _) => Raised (FileNotFoundError dst_path)
  end.

(** ** The process state and its monad *)

Inductive command :=
| Argv (argv : list string)      (* subprocess.call([...], cwd=...) *)
| Shell (cmd : string).          (* subprocess.call(cmd, shell=True, cwd=...) *)

(** The calls with an effect outside the process, in program order. *)
Inductive event :=
| EvPrint (line : string)
| EvSpawn (c : command) (cwd : string)
| EvLogInfo (src dst : string)
| EvMakedirs (path : string)
| EvCopy (src dst : string).

Record proc := { dst : dst_state; trace : list event }.

Definition M (A : Type) : Type := proc -> outcome A * proc.

Definition ret {A} (a : A) : M A := fun st => (Returned a, st).

Definition raise {A} (e : exn) : M A := fun st => (Raised e, st).

Definition bind {A B} (m : M A) (k : A -> M B) : M B :=
  fun st =>
    match m st with
    | (Returned a, st') => k a st'
    | (Raised e, st') => (Raised e, st')
    end.

Notation "x <- m ;; k" := (bind m (fun x => k))
  (at level 100, m at next level, k at level 200, right associativity).
Notation "m ;; k" := (bind m (fun _ => k))
  (at level 100, k at level 200, right associativity).

Definition lift {A} (o : outcome A) : M A := fun st => (o, st).

Definition emit (ev : event) : M unit :=
  fun st => (Returned tt, {| dst := dst st; trace := trace st ++ [ev] |}).

Definition get_dst : M dst_state := fun st => (Returned (dst st), st).

Definition put_dst (d : dst_state) : M unit :=
  fun st => (Returned tt, {| dst := d; trace := trace st |}).

(** [try: m  except (IOError, OSError): pass] *)
Definition try_except_OSError_pass (m : M unit) : M unit :=
  fun st =>
    match m st with
    | (Raised e, st') =>
        if is_OSError e then (Returned tt, st') else (Raised e, st')
    | r => r
    end.

(** [for x in l: body] *)
Fixpoint for_each {A} (l : list A) (body : A -> M unit) : M unit :=
  match l with
  | [] => ret tt
  | x :: l' => body x ;; for_each l' body
  end.

(** ** Command objects *)

(** [self.definition.location] and [self._keywords]. *)
Record manage_command := {
  location : string;
  keywords : gmap string (option string)
}.

(** The argparse namespace: [ns.dry_run] for build and clean; [ns.layout],
    [ns.prefix] and [ns.root] for install. *)
Record namespace := {
  dry_run : bool;
  layout : string;
  prefix : string;
  root : string
}.

(** [d.get(key)], with [None] for a missing key. *)
Definition dict_get (d : gmap string (option string)) (key : string)
  : option string := default None (d !! key).

Section manage_ext.

(** The collaborators the module imports or finds around it. *)

(** [plainbox.provider_manager._], the gettext lookup. *)
Variable gettext : string -> string.

(** The calling process, as the kernel sees it. *)
Variable who : caller.

(** The file system the command reads: keyed by path. *)
Variable disk : gmap string node.

(** The child process: its exit status, or the exception [subprocess.call]
    raises when it cannot be started. *)
Variable spawn : command -> string -> outcome Z.

(** [InstallCommand._get_dest_map(layout, prefix)]. *)
Variable get_dest_map : string -> string -> gmap string string.

(** [InstallCommand.invoked], the stock install step. *)
Variable super_invoked : manage_command -> namespace -> M pyval.

(** *** Library calls *)

Definition print (line : string) : M unit := emit (EvPrint line).

Definition subprocess_call (c : command) (cwd : string) : M Z :=
  emit (EvSpawn c cwd) ;; lift (spawn c cwd).

Definition os_path_isdir (path : string) : bool :=
  match disk !! path with
  | Some (Directory _ _) => true
  | _ => false
  end.

Definition os_listdir (path : string) : M (list string) :=
  match disk !! path with
  | Some (Directory _ names) => ret names
  | Some (RegFile _) => raise (NotADirectoryError path)
  | None => raise (FileNotFoundError path)
  end.

(** [os.access(path, os.X_OK)] *)
Definition os_access_X_OK (path : string) : bool :=
  match disk !! path with
  | Some (RegFile f) => may_exec who (f_mode f)
  | Some (Directory mode _) => may_search who mode
  | None => false
  end.

(** [os.makedirs(path, exist_ok=True)], at the destination path. *)
Definition os_makedirs (path : string) : M unit :=
  emit (EvMakedirs path) ;;
  d <- get_dst ;;
  d' <- lift (makedirs_at path d) ;;
  put_dst d'.

Definition logger_info (src_file dst_dir : string) : M unit :=
  emit (EvLogInfo src_file dst_dir).

(** [shutil.copy(src, dst)]: [copyfile] opens [src] for reading, then the
    target for writing, and [copymode] gives the target the permission
    bits of [src]. *)
Definition shutil_copy (src dst_path : string) : M unit :=
  emit (EvCopy src dst_path) ;;
  match disk !! src with
  | None => raise (FileNotFoundError src)
  | Some (Directory _ _) => raise (IsADirectoryError src)
  | Some (RegFile f) =>
      if negb (may_read who (f_mode f)) then raise (PermissionError src)
      else
        d <- get_dst ;;
        d' <- lift (write_target who dst_path (os_path_basename src) f d) ;;
        put_dst d'
  end.

(** *** [BuildCommand] *)

Definition BuildCommand_build_cmd (self : manage_command) : option string :=
  dict_get (keywords self) "build_cmd".

Definition BuildCommand_src_dir (self : manage_command) : string :=
  os_path_join (location self) "src".

Definition BuildCommand_invoked (self : manage_command) (ns : namespace)
  : M pyval :=
  match BuildCommand_build_cmd self with
  | None =>
      print (gettext "This provider doesn't define build_cmd.") ;;
      print (gettext "Add it to manage.py and try again") ;;
      ret (PyInt 1)
  | Some build_cmd =>
      if negb (os_path_isdir (BuildCommand_src_dir self)) then
        print (gettext "The src/ directory doesn't exist") ;;
        ret (PyInt 1)
      else if dry_run ns then
        tokens <- lift (shlex.split build_cmd) ;;
        if bool_decide (tokens = ["make"; "-C"; "src"]) then
          subprocess_call (Argv ["make"; "-C"; "src"; "-n"]) (location self) ;;
          ret PyNone
        else
          print build_cmd ;;
          ret PyNone
      else
        subprocess_call (Shell build_cmd) (location self) ;;
        ret PyNone
  end.

(** *** [CleanCommand] *)

Definition CleanCommand_clean_cmd (self : manage_command) : option string :=
  dict_get (keywords self) "clean_cmd".

Definition CleanCommand_src_dir (self : manage_command) : string :=
  os_path_join (location self) "src".

Definition CleanCommand_invoked (self : manage_command) (ns : namespace)
  : M pyval :=
  match CleanCommand_clean_cmd self with
  | None =>
      print (gettext "This provider doesn't define clean_cmd.") ;;
      print (gettext "Add it to manage.py and try again") ;;
      ret (PyInt 1)
  | Some clean_cmd =>
      if negb (os_path_isdir (CleanCommand_src_dir self)) then
        print (gettext "The src/ directory doesn't exist") ;;
        ret (PyInt 1)
      else if dry_run ns then
        tokens <- lift (shlex.split clean_cmd) ;;
        if bool_decide (tokens = ["make"; "-C"; "src"; "clean"]) then
          subprocess_call (Argv ["make"; "-C"; "src"; "clean"; "-n"])
            (location self) ;;
          ret PyNone
        else
          print clean_cmd ;;
          ret PyNone
      else
        subprocess_call (Shell clean_cmd) (location self) ;;
        ret PyNone
  end.

(** *** [InstallCommandExt] *)

Definition InstallCommandExt_build_bin (self : manage_command) : string :=
  os_path_join (location self) "build/bin".

(** [dest_map['bin']] *)
Definition getitem (d : gmap string string) (key : string) : M string :=
  match d !! key with
  | Some v => ret v
  | None => raise (KeyError key)
  end.

(** One pass of the loop body of [_install_src_executables]. *)
Definition install_one (src_dir dst_dir filename : string) : M unit :=
  let src_file := os_path_join src_dir filename in
  if os_access_X_OK src_file || endswith filename ".exe" then
    try_except_OSError_pass (os_makedirs dst_dir) ;;
    logger_info src_file dst_dir ;;
    shutil_copy src_file dst_dir
  else ret tt.

Definition InstallCommandExt_install_src_executables
    (self : manage_command) (ns : namespace) : M pyval :=
  let dest_map := get_dest_map (layout ns) (prefix ns) in
  bin <- getitem dest_map "bin" ;;
  let dst_dir := root ns +:+ bin in
  let src_dir := InstallCommandExt_build_bin self in
  names <- os_listdir src_dir ;;
  for_each names (install_one src_dir dst_dir) ;;
  ret PyNone.

Definition InstallCommandExt_invoked (self : manage_command) (ns : namespace)
  : M pyval :=
  super_invoked self ns ;;
  InstallCommandExt_install_src_executables self ns ;;
  ret PyNone.

End manage_ext.

(** ** Dispatch of the two new subcommands *)

Inductive subcommand := Build | Clean.

Definition configured_cmd (a : subcommand) (self : manage_command)
  : option string :=
  match a with
  | Build => BuildCommand_build_cmd self
  | Clean => CleanCommand_clean_cmd self
  end.

Definition invoke (gettext : string -> string) (disk : gmap string node)
    (spawn : command -> string -> outcome Z) (a : subcommand)
  : manage_command -> namespace -> M pyval :=
  match a with
  | Build => BuildCommand_invoked gettext disk spawn
  | Clean => CleanCommand_invoked gettext disk spawn
  end.

(** The first line printed when the command string is missing. *)
Definition undefined_message (a : subcommand) : string :=
  match a with
  | Build => "This provider doesn't define build_cmd."
  | Clean => "This provider doesn't define clean_cmd."
  end.

(** The token list the dry run recognises. *)
Definition make_tokens (a : subcommand) : list string :=
  match a with
  | Build => ["make"; "-C"; "src"]
  | Clean => ["make"; "-C"; "src"; "clean"]
  end.

(** Appending events to the trace of a state. *)
Definition logged (st : proc) (evs : list event) : proc :=
  {| dst := dst st; trace := trace st ++ evs |}.

(** What [invoked] returns after [subprocess.call]: the status of the child
    is dropped, an exception passes through. *)
Definition after_call (r : outcome Z) : outcome pyval :=
  match r with
  | Returned _ => Returned PyNone
  | Raised e => Raised e
  end.

(** Events by which the process itself changes the file system. *)
Definition mutates_filesystem (ev : event) : bool :=
  match ev with
  | EvMakedirs _ | EvCopy _ _ => true
  | _ => false
  end.

(** Events a dry run of build may produce: printing, and the dry run of
    make itself. *)
Definition build_dry_run_event (ev : event) : bool :=
  match ev with
  | EvPrint _ => true
  | EvSpawn (Argv argv) _ => bool_decide (argv = ["make"; "-C"; "src"; "-n"])
  | _ => false
  end.

(** ** A sample provider

    The provider of [src/manage.py], unpacked in [/p], after a build that
    left an executable, a text file and a Windows binary in [build/bin]. *)

Definition sample_keywords : gmap string (option string) :=
  <["name" := Some "2014.pl.zygoon.examples.go:basic"]>
  (<["version" := Some "1.0"]>
  (<["build_cmd" :=
      Some "mkdir -p build/bin && cd build/bin && go build ../../src/hello-world.go"]>
  (<["clean_cmd" := Some "rm -rf build/bin"]> ∅))).

Definition sample : manage_command :=
  {| location := "/p"; keywords := sample_keywords |}.

Definition with_cmd (key : string) (cmd : option string) : manage_command :=
  {| location := "/p"; keywords := <[key := cmd]> ∅ |}.

Definition hello : file := {| f_mode := 493; f_data := "go-binary" |}.
Definition notes : file := {| f_mode := 420; f_data := "notes" |}.
Definition tool_exe : file := {| f_mode := 420; f_data := "MZ" |}.

Definition sample_disk : gmap string node :=
  <["/p/src" := Directory 493 ["hello-world.go"]]>
  (<["/p/build/bin" := Directory 493 ["hello"; "notes.txt"; "tool.exe"]]>
  (<["/p/build/bin/hello" := RegFile hello]>
  (<["/p/build/bin/notes.txt" := RegFile notes]>
  (<["/p/build/bin/tool.exe" := RegFile tool_exe]> ∅)))).

(** The same tree before any build: no [build/bin]. *)
Definition unbuilt_disk : gmap string node :=
  <["/p/src" := Directory 493 ["hello-world.go"]]> ∅.

(** A tree without [src/]. *)
Definition bare_disk : gmap string node := ∅.

(** A shell in which [exit N] behaves as it should for N = 7, and every
    other child succeeds. *)
Definition sample_spawn (c : command) (cwd : string) : outcome Z :=
  match c with
  | Shell cmd => if String.eqb cmd "exit 7" then Returned 7 else Returned 0
  | Argv _ => Returned 0
  end.

Definition no_gettext (s : string) : string := s.

Definition sample_dest_map (layout prefix : string) : gmap string string :=
  <["bin" := prefix +:+ "/lib/plainbox-providers-1/basic/bin"]> ∅.

Definition sample_super (self : manage_command) (ns : namespace) : M pyval :=
  ret PyNone.

Definition ns_real : namespace :=
  {| dry_run := false; layout := "flat"; prefix := "/usr"; root := "" |}.

Definition ns_dry : namespace :=
  {| dry_run := true; layout := "flat"; prefix := "/usr"; root := "" |}.

Definition fresh : proc := {| dst := DstAbsent ParentWritable; trace := [] |}.

(** ** The selection test and the shape of a directory listing *)

(** The test of the copy loop:
    [os.access(src_file, os.X_OK) or filename.endswith('.exe')]. *)
Definition installable (who : caller) (disk : gmap string node) (src_dir filename : string)
  : bool :=
  os_access_X_OK who disk (os_path_join src_dir filename)
  || endswith filename ".exe".

(** A name [os.listdir] can return holds no slash. *)
Fixpoint slash_free (s : string) : bool :=
  match s with
  | EmptyString => true
  | String c rest => negb (Ascii.eqb c "/"%char) && slash_free rest
  end.

(** The listing of a directory: distinct names, none with a slash. *)
Definition listing_ok (names : list string) : Prop :=
  NoDup names /\ Forall (fun n => slash_free n = true) names.

(** The calls one pass of the loop makes for [filename]. *)
Definition calls_for (who : caller) (disk : gmap string node) (src_dir dst_dir : string)
    (filename : string) : list event :=
  if installable who disk src_dir filename then
    let src_file := os_path_join src_dir filename in
    [EvMakedirs dst_dir; EvLogInfo src_file dst_dir; EvCopy src_file dst_dir]
  else [].

(** The children of the destination directory with [filename] copied in. *)
Definition with_copy (disk : gmap string node) (src_dir : string)
    (children : gmap string node) (filename : string) : gmap string node :=
  match disk !! os_path_join src_dir filename with
  | Some (RegFile f) => <[filename := RegFile f]> children
  | _ => children
  end.

(** The directory the loop starts from, when it has or can make one. *)
Definition start_dir (d : dst_state) : option (bool * gmap string node) :=
  match d with
  | DstDir writable children => Some (writable, children)
  | DstAbsent ParentWritable | DstAbsent (ParentMissing true) =>
      Some (true, ∅)
  | _ => None
  end.

(** A build tree whose [build/bin] also holds a directory. *)
Definition plugins_disk : gmap string node :=
  <["/p/src" := Directory 493 ["hello-world.go"]]>
  (<["/p/build/bin" := Directory 493 ["plugins"; "hello"]]>
  (<["/p/build/bin/plugins" := Directory 493 []]>
  (<["/p/build/bin/hello" := RegFile hello]> ∅))).

(** A clean command with a quote that is never closed. *)
Definition unclosed_cmd : string := "rm -rf 'build".

(** The destination directory of the sample provider. *)
Definition sample_dst_dir : string := "/usr/lib/plainbox-providers-1/basic/bin".

(** The process after the install step ran once on the sample tree. *)
Definition installed_once : proc :=
  snd (InstallCommandExt_install_src_executables Owner sample_disk sample_dest_map
         sample ns_real fresh).

(** ** The copy loop seen from the destination

    The loop of [_install_src_executables] reads the destination only
    through [os.makedirs] and [shutil.copy]; these functions follow one
    pass, and the whole loop, on the destination alone. *)

Definition after_makedirs (dst_dir : string) (d : dst_state) : dst_state :=
  match makedirs_at dst_dir d with
  | Returned d' => d'
  | Raised _ => d
  end.

Definition copy_outcome (who : caller) (disk : gmap string node) (src dst_dir : string)
    (d : dst_state) : outcome dst_state :=
  match disk !! src with
  | None => Raised (FileNotFoundError src)
  | Some (Directory _ _) => Raised (IsADirectoryError src)
  | Some (RegFile f) =>
      if negb (may_read who (f_mode f)) then Raised (PermissionError src)
      else write_target who dst_dir (os_path_basename src) f d
  end.

Definition pass_dst (who : caller) (disk : gmap string node) (src_dir dst_dir : string)
    (filename : string) (d : dst_state) : outcome unit * dst_state :=
  if installable who disk src_dir filename then
    let d_m := after_makedirs dst_dir d in
    match copy_outcome who disk (os_path_join src_dir filename) dst_dir d_m with
    | Returned d' => (Returned tt, d')
    | Raised e => (Raised e, d_m)
    end
  else (Returned tt, d).

Fixpoint loop_dst (who : caller) (disk : gmap string node) (src_dir dst_dir : string)
    (names : list string) (d : dst_state) : outcome unit * dst_state :=
  match names with
  | [] => (Returned tt, d)
  | n :: rest =>
      match pass_dst who disk src_dir dst_dir n d with
      | (Returned _, d') => loop_dst who disk src_dir dst_dir rest d'
      | (Raised e, d') => (Raised e, d')
      end
  end.

(** The calls of the passes the loop gets to. *)
Fixpoint loop_calls (who : caller) (disk : gmap string node) (src_dir dst_dir : string)
    (names : list string) (d : dst_state) : list event :=
  match names with
  | [] => []
  | n :: rest =>
      calls_for who disk src_dir dst_dir n
      ++ match pass_dst who disk src_dir dst_dir n d with
         | (Returned _, d') => loop_calls who disk src_dir dst_dir rest d'
         | (Raised _, _) => []
         end
  end.

Definition is_copy (ev : event) : bool :=
  match ev with
  | EvCopy _ _ => true
  | _ => false
  end.

Definition is_log (ev : event) : bool :=
  match ev with
  | EvLogInfo _ _ => true
  | _ => false
  end.

(** ** Classes and the registry of subcommands

    [manage_py_extension] patches [ProviderManagerTool._SUB_COMMANDS], the
    list of command classes the tool instantiates.  A class is known here
    by its name, the value it gives [SUPPORTS_KEYWORDS] if it sets one, and
    its first base; two classes are the same when these agree. *)

Inductive pyclass :=
| object
| subclass (name : string) (own_SUPPORTS_KEYWORDS : option bool)
    (base : pyclass).

#[global] Instance pyclass_eq_dec : EqDecision pyclass.
Proof. solve_decision. Defined.

(** [cls.__bases__[0]]; the tuple is empty for [object]. *)
Definition first_base (cls : pyclass) : option pyclass :=
  match cls with
  | object => None
  | subclass _ _ base => Some base
  end.

(** [getattr(cls, 'SUPPORTS_KEYWORDS', False)]: the attribute of the class
    or of the nearest base that sets it. *)
Fixpoint getattr_SUPPORTS_KEYWORDS (cls : pyclass) : bool :=
  match cls with
  | object => false
  | subclass _ (Some v) _ => v
  | subclass _ None base => getattr_SUPPORTS_KEYWORDS base
  end.

(** [l.index(x)]: the first position holding [x]; [None] stands for the
    [ValueError] of a list without [x]. *)
Fixpoint list_index (x : pyclass) (l : list pyclass) : option nat :=
  match l with
  | [] => None
  | y :: rest => if decide (y = x) then Some 0%nat else S <$> list_index x rest
  end.

(** [l.insert(i, x)] *)
Definition list_insert_at (i : nat) (x : pyclass) (l : list pyclass)
  : list pyclass := take i l ++ x :: drop i l.

Inductive registry_error :=
| IndexError_no_base          (* tuple index out of range *)
| ValueError_not_in_list.     (* list.index(x): x not in list *)

(** The decorator: what it returns (the class, or the exception) and the
    command list it leaves. *)
Definition manage_py_extension (ManageCommand : pyclass) (cls : pyclass)
    (cmd_list : list pyclass) : (registry_error + pyclass) * list pyclass :=
  match first_base cls with
  | None => (inl IndexError_no_base, cmd_list)
  | Some orig =>
      if decide (orig = ManageCommand) then
        (* New subcommand, just append it *)
        (inr cls, cmd_list ++ [cls])
      else
        (* Override / replacement for an existing command *)
        match list_index orig cmd_list with
        | None => (inl ValueError_not_in_list, cmd_list)
        | Some index =>
            (inr cls, list_insert_at index cls (delete index cmd_list))
        end
  end.

(** An instance of a command class, as [add_subcommands] makes it: with
    the provider definition (its location), and with the keywords of
    [setup] when the class takes them. *)
Record command_instance := {
  inst_class : pyclass;
  inst_location : string;
  inst_keywords : option (gmap string (option string))
}.

(** [ProviderManagerToolExt.add_subcommands]: one instance per registered
    class, in the order of the list; each registers its parser. *)
Definition add_subcommands (definition_location : string)
    (keywords : gmap string (option string)) (cmd_list : list pyclass)
  : list command_instance :=
  map (fun cmd_cls =>
         if getattr_SUPPORTS_KEYWORDS cmd_cls then
           {| inst_class := cmd_cls; inst_location := definition_location;
              inst_keywords := Some keywords |}
         else
           {| inst_class := cmd_cls; inst_location := definition_location;
              inst_keywords := None |})
      cmd_list.

Section module_classes.

(** The classes of [plainbox.provider_manager] the module builds on. *)
Variables ManageCommand InstallCommand SourceDistributionCommand : pyclass.

Definition SourceDistributionCommandExt : pyclass :=
  subclass "SourceDistributionCommandExt" None SourceDistributionCommand.

Definition InstallCommandExt : pyclass :=
  subclass "InstallCommandExt" None InstallCommand.

Definition BuildCommand : pyclass :=
  subclass "BuildCommand" (Some true) ManageCommand.

Definition CleanCommand : pyclass :=
  subclass "CleanCommand" (Some true) ManageCommand.

(** The decorations done when the module is imported, top to bottom; an
    exception ends the import and keeps the list as patched so far. *)
Definition import_manage_ext (cmd_list : list pyclass)
  : option registry_error * list pyclass :=
  match manage_py_extension ManageCommand SourceDistributionCommandExt
          cmd_list with
  | (inl e, l1) => (Some e, l1)
  | (inr _, l1) =>
      match manage_py_extension ManageCommand InstallCommandExt l1 with
      | (inl e, l2) => (Some e, l2)
      | (inr _, l2) =>
          match manage_py_extension ManageCommand BuildCommand l2 with
          | (inl e, l3) => (Some e, l3)
          | (inr _, l3) =>
              match manage_py_extension ManageCommand CleanCommand l3 with
              | (inl e, l4) => (Some e, l4)
              | (inr _, l4) => (None, l4)
              end
          end
      end
  end.

End module_classes.

(** A stock registry, for the worked examples. *)
Definition stock_ManageCommand : pyclass := subclass "ManageCommand" None object.
Definition stock_InstallCommand : pyclass :=
  subclass "InstallCommand" None stock_ManageCommand.
Definition stock_SourceDistributionCommand : pyclass :=
  subclass "SourceDistributionCommand" None stock_ManageCommand.
Definition stock_InfoCommand : pyclass :=
  subclass "InfoCommand" None stock_ManageCommand.
Definition stock_commands : list pyclass :=
  [stock_InfoCommand; stock_InstallCommand; stock_SourceDistributionCommand].

(** ** More about the trace *)

Definition is_spawn (ev : event) : bool :=
  match ev with
  | EvSpawn _ _ => true
  | _ => false
  end.

(** Every child spawned by [ev] runs in [cwd]. *)
Definition spawned_in (cwd : string) (ev : event) : bool :=
  match ev with
  | EvSpawn _ dir => String.eqb dir cwd
  | _ => true
  end.

(** Events a dry run of clean may produce: printing, and the dry run of
    make itself. *)
Definition clean_dry_run_event (ev : event) : bool :=
  match ev with
  | EvPrint _ => true
  | EvSpawn (Argv argv) _ =>
      bool_decide (argv = ["make"; "-C"; "src"; "clean"; "-n"])
  | _ => false
  end.

(** The file a copy of [filename] leaves at the destination path when that
    path holds a regular file. *)
Definition overwritten_by (disk : gmap string node) (src_dir : string)
    (f : file) (filename : string) : file :=
  match disk !! os_path_join src_dir filename with
  | Some (RegFile f') => f'
  | _ => f
  end.

(** The caller may write the file behind a selected entry. *)
Definition rewritable (who : caller) (disk : gmap string node) (src_dir filename : string)
  : bool :=
  negb (installable who disk src_dir filename)
  || match disk !! os_path_join src_dir filename with
     | Some (RegFile f) => may_write who (f_mode f)
     | _ => false
     end.

(** A read-only executable, and a build tree that holds only it. *)
Definition locked_tool : file := {| f_mode := 365; f_data := "go-binary" |}.

Definition locked_disk : gmap string node :=
  <["/p/src" := Directory 493 ["hello-world.go"]]>
  (<["/p/build/bin" := Directory 493 ["hello"]]>
  (<["/p/build/bin/hello" := RegFile locked_tool]> ∅)).

(** A regular file where the destination directory should be. *)
Definition file_in_the_way : proc :=
  {| dst := DstFile notes; trace := [] |}.

(** A destination that already holds a file of its own. *)
Definition populated : proc :=
  {| dst := DstDir true (<["README" := RegFile notes]> ∅); trace := [] |}.

(** A build tree whose [build/bin] holds nothing to install. *)
Definition plain_disk : gmap string node :=
  <["/p/src" := Directory 493 ["hello-world.go"]]>
  (<["/p/build/bin" := Directory 493 ["notes.txt"]]>
  (<["/p/build/bin/notes.txt" := RegFile notes]> ∅)).

(** A registry without the stock sdist command. *)
Definition short_commands : list pyclass :=
  [stock_InfoCommand; stock_InstallCommand].

(** A provider's own override of the stock install command. *)
Definition MyInstall : pyclass :=
  subclass "MyInstall" None stock_InstallCommand.

(** A clean command the shell runs as it is: what follows the hash sign is
    a comment for the shell. *)
Definition commented_cmd : string := "rm -rf build/bin # don't keep".

(** * Worked examples of the helpers *)

Example shlex_split_make :
  shlex.split "make -C src" = Returned ["make"; "-C"; "src"].
Proof. reflexivity. Qed.

Example shlex_split_quoted :
  shlex.split "make  '-C' s\rc  " = Returned ["make"; "-C"; "src"].
Proof. reflexivity. Qed.

Example shlex_split_empty : shlex.split "" = Returned [].
Proof. reflexivity. Qed.

Example shlex_split_empty_quotes : shlex.split "a '' b" = Returned ["a"; ""; "b"].
Proof. reflexivity. Qed.

Example shlex_split_unclosed :
  shlex.split "echo 'oops" = Raised (ValueError "No closing quotation").
Proof. reflexivity. Qed.

Example os_path_join_ex :
  os_path_join "/p" "src" = "/p/src" /\ os_path_join "/p/" "src" = "/p/src"
  /\ os_path_join "" "src" = "src" /\ os_path_join "/p" "/abs" = "/abs".
Proof. repeat split. Qed.

Example os_path_basename_ex :
  os_path_basename "/p/build/bin/hello" = "hello"
  /\ os_path_basename "hello" = "hello" /\ os_path_basename "/p/" = "".
Proof. repeat split. Qed.

Example endswith_ex :
  endswith "tool.exe" ".exe" = true /\ endswith "exe" ".exe" = false
  /\ endswith "tool.exe.bak" ".exe" = false.
Proof. repeat split. Qed.

(** * Properties of build and clean *)

Section build_clean.

Variable gettext : string -> string.
Variable who : caller.
Variable disk : gmap string node.
Variable spawn : command -> string -> outcome Z.

Local Abbreviation run := (invoke gettext disk spawn).

Ltac run_cmd a :=
  destruct a; cbn [invoke configured_cmd undefined_message make_tokens] in *;
  unfold BuildCommand_invoked, CleanCommand_invoked,
    BuildCommand_src_dir, CleanCommand_src_dir in *.

Ltac step_monad :=
  unfold bind, ret, raise, lift, print, subprocess_call, emit, logged;
  cbn [dst trace fst snd].

Lemma app_trace_assoc (st : proc) (e1 e2 : event) :
  {| dst := dst st; trace := (trace st ++ [e1]) ++ [e2] |}
  = logged st [e1; e2].
Proof. unfold logged. by rewrite <- app_assoc. Qed.

(** C2.  When [build_cmd] (for build) or [clean_cmd] (for clean) is missing
    from the keywords or is [None], the command returns 1 whatever
    [--dry-run] says; all it does is print the two lines of guidance: no
    child is spawned and the destination is untouched. *)
Theorem unset_command_returns_1 (a : subcommand) (self : manage_command)
    (ns : namespace) (st : proc) :
  configured_cmd a self = None ->
  run a self ns st =
    (Returned (PyInt 1),
     logged st [EvPrint (gettext (undefined_message a));
                EvPrint (gettext "Add it to manage.py and try again")]).
Proof.
  intros Hcmd. run_cmd a; rewrite Hcmd; step_monad;
    by rewrite app_trace_assoc.
Qed.

(** C3.  When the command string is configured and [<location>/src] is not
    a directory, build and clean return 1 in dry-run and in real mode alike,
    print one line and spawn nothing. *)
Theorem missing_src_returns_1 (a : subcommand) (self : manage_command)
    (ns : namespace) (st : proc) (cmd : string) :
  configured_cmd a self = Some cmd ->
  os_path_isdir disk (os_path_join (location self) "src") = false ->
  run a self ns st =
    (Returned (PyInt 1),
     logged st [EvPrint (gettext "The src/ directory doesn't exist")]).
Proof.
  intros Hcmd Hdir. run_cmd a; rewrite Hcmd, Hdir; by step_monad.
Qed.

(** The dry run of a command string that [shlex.split] accepts, with the
    command configured and [src/] present: when the tokens are exactly the
    make invocation, the command calls that invocation with [-n] appended,
    in the project root; for any other token list it prints the command
    string and spawns nothing. *)
Theorem dry_run_of_tokenized_command (a : subcommand)
    (self : manage_command) (ns : namespace) (st : proc)
    (cmd : string) (tokens : list string) :
  configured_cmd a self = Some cmd ->
  os_path_isdir disk (os_path_join (location self) "src") = true ->
  dry_run ns = true ->
  shlex.split cmd = Returned tokens ->
  run a self ns st =
    if bool_decide (tokens = make_tokens a) then
      let make_n := Argv (make_tokens a ++ ["-n"]) in
      (after_call (spawn make_n (location self)),
       logged st [EvSpawn make_n (location self)])
    else (Returned PyNone, logged st [EvPrint cmd]).
Proof.
  intros Hcmd Hdir Hdry Htok.
  run_cmd a; rewrite Hcmd, Hdir, Hdry; step_monad; rewrite Htok;
    case_bool_decide; step_monad; cbn [app]; try done;
    by destruct (spawn _ _).
Qed.

(** C9.  A dry run of build, for any keywords and any file system, leaves
    the destination as it was and adds to the trace only lines printed and
    at most the dry run of make ([make -C src -n]): the process makes no
    file-system call of its own and does not hand the command string to a
    shell. *)
Theorem build_dry_run_touches_nothing (self : manage_command)
    (ns : namespace) (st : proc) :
  dry_run ns = true ->
  let r := BuildCommand_invoked gettext disk spawn self ns st in
  dst (snd r) = dst st
  /\ exists evs : list event,
       trace (snd r) = trace st ++ evs
       /\ forallb build_dry_run_event evs = true
       /\ forallb (fun ev => negb (mutates_filesystem ev)) evs = true.
Proof.
  intros Hdry. unfold BuildCommand_invoked. rewrite Hdry.
  destruct (BuildCommand_build_cmd self) as [cmd|]; step_monad.
  2:{ split; [done|]. eexists. rewrite <- app_assoc. by split. }
  destruct (negb _); step_monad.
  { split; [done|]. eexists. by split. }
  destruct (shlex.split cmd) as [tokens|e]; cbn.
  2:{ split; [done|]. exists []. by rewrite app_nil_r. }
  case_bool_decide; step_monad.
  - destruct (spawn _ _); cbn; (split; [done|]); eexists; by split.
  - split; [done|]. eexists. by split.
Qed.

(** C10.  An empty command string counts as configured: the command goes
    on to the [src/] check and then, in a dry run, prints the empty line,
    and in real mode hands the empty string to the shell. *)
Theorem empty_command_is_configured (a : subcommand)
    (self : manage_command) (ns : namespace) (st : proc) :
  configured_cmd a self = Some "" ->
  run a self ns st =
    if negb (os_path_isdir disk (os_path_join (location self) "src")) then
      (Returned (PyInt 1),
       logged st [EvPrint (gettext "The src/ directory doesn't exist")])
    else if dry_run ns then (Returned PyNone, logged st [EvPrint ""])
    else (after_call (spawn (Shell "") (location self)),
          logged st [EvSpawn (Shell "") (location self)]).
Proof.
  intros Hcmd.
  run_cmd a; rewrite Hcmd; destruct (negb _); step_monad; try done;
    destruct (dry_run ns); step_monad; try done;
    by destruct (spawn _ _).
Qed.

End build_clean.

(** * Paths *)

Section paths.

Lemma append_nil_l (s : string) : "" +:+ s = s.
Proof. reflexivity. Qed.

Lemma append_cons (a : ascii) (t s : string) :
  String a t +:+ s = String a (t +:+ s).
Proof. reflexivity. Qed.

Lemma append_snoc (t : string) (c : ascii) (rest : string) :
  (t +:+ String c "") +:+ rest = t +:+ String c rest.
Proof.
  induction t as [|a t IH]; rewrite ?append_cons, ?append_nil_l;
    [done | by f_equal].
Qed.

Lemma append_empty_r (t : string) : t +:+ "" = t.
Proof.
  induction t as [|a t IH]; rewrite ?append_cons, ?append_nil_l;
    [done | by f_equal].
Qed.

Lemma basename_from_app (a b t : string) :
  basename_from (a +:+ b) t = basename_from b (basename_from a t).
Proof.
  revert t. induction a as [|c a IH]; intros t;
    rewrite ?append_cons, ?append_nil_l; [done|].
  cbn [basename_from]. destruct (Ascii.eqb c "/"); apply IH.
Qed.

Lemma basename_from_slash_free (n t : string) :
  slash_free n = true -> basename_from n t = t +:+ n.
Proof.
  revert t. induction n as [|c n IH]; intros t; cbn [basename_from slash_free].
  - by rewrite append_empty_r.
  - intros [Hc Hn]%andb_prop. destruct (Ascii.eqb c "/"); [done|].
    rewrite IH by done. apply append_snoc.
Qed.

Lemma basename_from_endswith_slash (d t : string) :
  endswith d "/" = true -> basename_from d t = "".
Proof.
  revert t. induction d as [|c d IH]; intros t;
    cbn [basename_from endswith]; [done|].
  intros [Heq | Hrest]%orb_prop.
  - apply String.eqb_eq in Heq. injection Heq as -> ->. done.
  - destruct (Ascii.eqb c "/"); by apply IH.
Qed.

Lemma slash_free_relative (n : string) :
  slash_free n = true -> startswith n "/" = false.
Proof.
  destruct n as [|c n]; cbn [slash_free]; [done|].
  intros [Hc _]%andb_prop. unfold startswith. cbn [String.prefix].
  destruct (ascii_dec "/" c) as [<-|]; [done|]. done.
Qed.

(** The base name of an entry of a directory is the name listed. *)
Lemma basename_join (d n : string) :
  slash_free n = true -> os_path_basename (os_path_join d n) = n.
Proof.
  intros Hn. unfold os_path_basename, os_path_join.
  rewrite (slash_free_relative n Hn).
  destruct (String.eqb d "") eqn:Hd; cbn [orb].
  { apply String.eqb_eq in Hd as ->.
    rewrite append_nil_l, basename_from_slash_free by done.
    apply append_nil_l. }
  destruct (endswith d "/") eqn:He.
  - rewrite basename_from_app, (basename_from_endswith_slash d) by done.
    rewrite basename_from_slash_free by done. apply append_nil_l.
  - rewrite !basename_from_app. cbn [basename_from Ascii.eqb Bool.eqb].
    rewrite basename_from_slash_free by done. apply append_nil_l.
Qed.

(** Distinct names of a directory are distinct paths. *)
Lemma os_path_join_inj (d n n' : string) :
  slash_free n = true -> slash_free n' = true ->
  os_path_join d n = os_path_join d n' -> n = n'.
Proof.
  intros Hn Hn'. unfold os_path_join.
  rewrite (slash_free_relative n Hn), (slash_free_relative n' Hn').
  destruct (_ || _); intros Heq.
  - by apply (inj (String.append d)) in Heq.
  - apply (inj (String.append d)) in Heq.
    by apply (inj (String.append "/")) in Heq.
Qed.

End paths.

(** * Properties of the install step *)

Section install_loop.

Variable who : caller.
Variable disk : gmap string node.
Variables src_dir dst_dir : string.

Local Abbreviation pass := (pass_dst who disk src_dir dst_dir).
Local Abbreviation loop := (loop_dst who disk src_dir dst_dir).
Local Abbreviation calls := (calls_for who disk src_dir dst_dir).

Ltac run_monad :=
  cbv [bind ret raise lift emit get_dst put_dst try_except_OSError_pass
       os_makedirs logger_info shutil_copy dst trace fst snd].

Lemma makedirs_at_OSError (d : dst_state) (e : exn) :
  makedirs_at dst_dir d = Raised e -> is_OSError e = true.
Proof. destruct d as [[| |[]]| |]; cbn; intros; by simplify_eq. Qed.

(** One pass of the loop, split into what it does to the destination and
    what it adds to the trace. *)
Lemma install_one_eq (n : string) (st : proc) :
  install_one who disk src_dir dst_dir n st =
    (fst (pass n (dst st)),
     {| dst := snd (pass n (dst st)); trace := trace st ++ calls n |}).
Proof.
  unfold install_one, pass_dst, calls_for, installable.
  destruct (_ || _).
  2:{ cbn [fst snd]. rewrite app_nil_r. by destruct st. }
  unfold after_makedirs, copy_outcome. run_monad.
  destruct st as [d tr].
  destruct (makedirs_at dst_dir d) as [d1|e1] eqn:Hmk.
  2: rewrite (makedirs_at_OSError _ _ Hmk).
  all: destruct (disk !! _) as [[f|m ns]|];
    rewrite <- ?app_assoc; cbn [app]; try done.
  all: destruct (negb _); [done|].
  all: by destruct (write_target who _ _ _ _).
Qed.

Lemma for_each_install_eq (names : list string) (st : proc) :
  for_each names (install_one who disk src_dir dst_dir) st =
    (fst (loop names (dst st)),
     {| dst := snd (loop names (dst st));
        trace := trace st ++ loop_calls who disk src_dir dst_dir names (dst st) |}).
Proof.
  revert st. induction names as [|n rest IH]; intros st; cbn.
  - rewrite app_nil_r. by destruct st.
  - unfold bind. rewrite install_one_eq.
    destruct (pass n (dst st)) as [[[]|e] d1]; cbn.
    + rewrite IH. cbn. by rewrite app_assoc.
    + by rewrite app_nil_r.
Qed.

(** *** One pass *)

Lemma pass_skip (n : string) (d : dst_state) :
  installable who disk src_dir n = false -> pass n d = (Returned tt, d).
Proof. intros Hn. unfold pass_dst. by rewrite Hn. Qed.

(** A pass that copies: the entry is a regular file the caller may read, and
    the destination is the one [write_target] gives after [os.makedirs]. *)
Lemma pass_copy_ok (n : string) (d d' : dst_state) :
  installable who disk src_dir n = true ->
  pass n d = (Returned tt, d') ->
  exists f,
    disk !! os_path_join src_dir n = Some (RegFile f)
    /\ may_read who (f_mode f) = true
    /\ write_target who dst_dir (os_path_basename (os_path_join src_dir n)) f
         (after_makedirs dst_dir d) = Returned d'.
Proof.
  intros Hn. unfold pass_dst, copy_outcome. rewrite Hn.
  destruct (disk !! _) as [[f|m ns]|]; try done.
  destruct (may_read who (f_mode f)) eqn:Hr; cbn [negb]; [|done].
  destruct (write_target who _ _ _ _) as [d1|e] eqn:Hw; [|done].
  intros [= <-]. by exists f.
Qed.

Lemma after_makedirs_idem (d : dst_state) :
  after_makedirs dst_dir (after_makedirs dst_dir d) = after_makedirs dst_dir d.
Proof. by destruct d as [[| |[]]| |]. Qed.

(** A pass that raised raises again, and changes nothing, when repeated on
    the destination it left. *)
Lemma pass_raise_stable (n : string) (d d1 : dst_state) (e : exn) :
  pass n d = (Raised e, d1) -> pass n d1 = (Raised e, d1).
Proof.
  unfold pass_dst. destruct (installable who disk src_dir n); [|done].
  destruct (copy_outcome _ _ _ _) as [d2|e2] eqn:Hc; [done|].
  intros [= <- <-]. by rewrite after_makedirs_idem, Hc.
Qed.

(** *** The whole loop *)

Lemma loop_cons (n : string) (rest : list string) (d : dst_state) :
  loop (n :: rest) d =
    match pass n d with
    | (Returned _, d') => loop rest d'
    | (Raised e, d') => (Raised e, d')
    end.
Proof. reflexivity. Qed.

(** A loop that completes made the calls of every selected entry, and every
    selected entry was a regular file the caller may read. *)
Lemma loop_completed (names : list string) (d d' : dst_state) :
  loop names d = (Returned tt, d') ->
  loop_calls who disk src_dir dst_dir names d = flat_map calls names
  /\ Forall (fun n => installable who disk src_dir n = true ->
              exists f, disk !! os_path_join src_dir n = Some (RegFile f)
                        /\ may_read who (f_mode f) = true) names.
Proof.
  revert d. induction names as [|n rest IH]; intros d; [by split|].
  rewrite loop_cons. cbn [loop_calls flat_map].
  destruct (pass n d) as [[[]|e] d1] eqn:Hp; [|done].
  intros Hrest. destruct (IH _ Hrest) as [Hcalls Hall]. split.
  - by rewrite Hcalls.
  - constructor; [|done]. intros Hn.
    destruct (pass_copy_ok _ _ _ Hn Hp) as (f & ? & ? & _). by exists f.
Qed.

(** The destination after a loop that completes, when it started from a
    directory or could make one: every selected entry was copied in under
    its own name, in the order of the listing. *)
Lemma loop_completed_dir (names : list string) (d d' : dst_state)
    (w : bool) (ch : gmap string node) :
  Forall (fun n => slash_free n = true) names ->
  loop names d = (Returned tt, d') ->
  start_dir d = Some (w, ch) ->
  d' = match List.filter (installable who disk src_dir) names with
       | [] => d
       | sel => DstDir w (foldl (with_copy disk src_dir) ch sel)
       end.
Proof.
  intros Hfree. revert d w ch.
  induction Hfree as [|n rest Hn _ IH]; intros d w ch.
  { by intros [= <-]. }
  rewrite loop_cons. cbn [List.filter].
  destruct (pass n d) as [[[]|e] d1] eqn:Hp; [|done].
  intros Hrest Hstart.
  destruct (installable who disk src_dir n) eqn:Hsel.
  2:{ rewrite pass_skip in Hp by done. injection Hp as <-. by eapply IH. }
  destruct (pass_copy_ok _ _ _ Hsel Hp) as (f & Hf & Hr & Hw).
  rewrite basename_join in Hw by done.
  assert (after_makedirs dst_dir d = DstDir w ch) as Hmk.
  { destruct d as [[| |[]]| |]; cbn in Hstart; by simplify_eq. }
  rewrite Hmk in Hw. cbn [write_target] in Hw.
  assert (d1 = DstDir w (with_copy disk src_dir ch n)) as ->.
  { unfold with_copy. rewrite Hf.
    destruct (ch !! n) as [[g|m ns]|]; [destruct (may_write _ _)| |destruct w];
      by simplify_eq. }
  rewrite (IH _ w (with_copy disk src_dir ch n) Hrest) by done.
  by destruct (List.filter _ rest).
Qed.

(** Among the calls of a whole listing, [shutil.copy] is called on an
    entry exactly when the entry passes the selection test. *)
Lemma copy_call_iff (names : list string) (n : string) :
  Forall (fun n => slash_free n = true) names ->
  In n names ->
  In (EvCopy (os_path_join src_dir n) dst_dir) (flat_map calls names)
  <-> installable who disk src_dir n = true.
Proof.
  intros Hfree Hin. rewrite in_flat_map. split.
  - intros (n' & Hin' & Hcall). unfold calls_for in Hcall.
    destruct (installable who disk src_dir n') eqn:Hsel; [|done].
    destruct Hcall as [H|[H|[H|[]]]]; try discriminate H.
    injection H as Hpath.
    rewrite Forall_forall in Hfree.
    apply os_path_join_inj in Hpath;
      [by subst | by apply Hfree, list_elem_of_In..].
  - intros Hsel. exists n. split; [done|].
    unfold calls_for. rewrite Hsel. cbn. tauto.
Qed.

(** Whatever the loop does, [shutil.copy] is called only on selected
    entries of the listing, with the destination directory as target. *)
Lemma loop_calls_copy (names : list string) (d : dst_state)
    (src dst : string) :
  In (EvCopy src dst) (loop_calls who disk src_dir dst_dir names d) ->
  dst = dst_dir
  /\ exists n, In n names
               /\ installable who disk src_dir n = true
               /\ src = os_path_join src_dir n.
Proof.
  revert d. induction names as [|n rest IH]; intros d; [done|].
  cbn [loop_calls]. intros [Hcall | Hrest]%in_app_or.
  - unfold calls_for in Hcall.
    destruct (installable who disk src_dir n) eqn:Hsel; [|done].
    destruct Hcall as [H|[H|[H|[]]]]; try discriminate H.
    injection H as <- <-. split; [done|]. exists n. by repeat split; [left|..].
  - destruct (pass n d) as [[[]|e] d1]; [|done].
    destruct (IH _ Hrest) as (-> & m & Hm & Hsel & ->).
    split; [done|]. exists m. by repeat split; [right|..].
Qed.

(** Entries that are not selected at the head of the listing are passed
    over. *)
Lemma loop_skip_prefix (pre rest : list string) (d : dst_state) :
  Forall (fun n => installable who disk src_dir n = false) pre ->
  loop (pre ++ rest) d = loop rest d
  /\ loop_calls who disk src_dir dst_dir (pre ++ rest) d
     = loop_calls who disk src_dir dst_dir rest d.
Proof.
  induction 1 as [|n pre Hn _ IH]; [done|].
  cbn [app loop_calls]. rewrite loop_cons, (pass_skip _ _ Hn).
  unfold calls_for. rewrite Hn. by destruct IH as [-> ->].
Qed.

(** A listing without a selected entry: the loop does nothing. *)
Lemma loop_nothing_selected (names : list string) (d : dst_state) :
  Forall (fun n => installable who disk src_dir n = false) names ->
  loop names d = (Returned tt, d)
  /\ loop_calls who disk src_dir dst_dir names d = [].
Proof.
  induction 1 as [|n rest Hn _ IH]; [done|].
  rewrite loop_cons. cbn [loop_calls]. rewrite (pass_skip _ _ Hn).
  unfold calls_for. rewrite Hn. by destruct IH as [-> ->].
Qed.

(** *** Running the loop again *)

(** A destination directory stays one, as writable as it was, and the loop
    touches only the entries named in the listing. *)
Lemma loop_dir_frame (names : list string) (w : bool)
    (ch : gmap string node) :
  Forall (fun n => slash_free n = true) names ->
  exists ch',
    snd (loop names (DstDir w ch)) = DstDir w ch'
    /\ forall k, k ∉ names -> ch' !! k = ch !! k.
Proof.
  intros Hfree. revert ch.
  induction Hfree as [|n rest Hn _ IH]; intros ch; [by exists ch|].
  rewrite loop_cons. unfold pass_dst.
  destruct (installable who disk src_dir n).
  2:{ destruct (IH ch) as (ch' & Hd & Hk). exists ch'. split; [done|].
      intros k Hnot. apply Hk. set_solver. }
  cbn [after_makedirs makedirs_at]. unfold copy_outcome.
  rewrite basename_join by done.
  destruct (disk !! _) as [[f|m ns]|]; [|by exists ch..].
  destruct (negb _); [by exists ch|]. cbn [write_target].
  assert (exists ch', snd (loop rest (DstDir w (<[n:=RegFile f]> ch)))
                      = DstDir w ch'
                      /\ forall k, k ∉ n :: rest -> ch' !! k = ch !! k)
    as Hcopied.
  { destruct (IH (<[n:=RegFile f]> ch)) as (ch' & Hd & Hk).
    exists ch'. split; [done|]. intros k Hnot.
    rewrite Hk by set_solver. apply lookup_insert_ne. set_solver. }
  destruct (ch !! n) as [[g|m ns]|];
    [destruct (may_write _ _)| |destruct w]; done || by exists ch.
Qed.

(** A regular file in the place of the destination stays a regular file. *)
Lemma loop_file_kind (names : list string) (g : file) :
  exists h, snd (loop names (DstFile g)) = DstFile h.
Proof.
  revert g. induction names as [|n rest IH]; intros g; [by exists g|].
  rewrite loop_cons. unfold pass_dst.
  destruct (installable who disk src_dir n); [|apply IH].
  cbn [after_makedirs makedirs_at]. unfold copy_outcome.
  destruct (disk !! _) as [[f|m ns]|]; [|by exists g..].
  destruct (negb _); [by exists g|]. cbn [write_target].
  destruct (may_write _ _); [apply IH | by exists g].
Qed.

(** Running the loop on the destination it left leaves that destination
    as it is. *)
Lemma loop_idempotent (names : list string) (d : dst_state) :
  NoDup names ->
  Forall (fun n => slash_free n = true) names ->
  snd (loop names (snd (loop names d))) = snd (loop names d).
Proof.
  intros Hnodup. revert d.
  induction Hnodup as [|n rest Hnotin _ IH]; intros d Hfree; [done|].
  apply Forall_cons in Hfree as [Hn Hfree].
  rewrite (loop_cons n rest d).
  destruct (pass n d) as [[[]|e] d1] eqn:Hp.
  2:{ cbn [snd]. by rewrite loop_cons, (pass_raise_stable _ _ _ _ Hp). }
  destruct (installable who disk src_dir n) eqn:Hsel.
  2:{ rewrite loop_cons, pass_skip by done. by apply IH. }
  destruct (pass_copy_ok _ _ _ Hsel Hp) as (f & Hf & Hr & Hw).
  rewrite basename_join in Hw by done.
  rewrite loop_cons. unfold pass_dst at 1, copy_outcome.
  rewrite Hsel, Hf, Hr, basename_join by done. cbn [negb].
  destruct (after_makedirs dst_dir d) as [[| |[]]|g|w ch] eqn:Hmk;
    cbn [write_target] in Hw; try done.
  { by destruct d as [[| |[]]| |]. }
  - (* the destination path holds a regular file *)
    destruct (may_write who (f_mode g)); [|done]. injection Hw as <-.
    destruct (loop_file_kind rest f) as (h & Hh). rewrite Hh.
    cbn [after_makedirs makedirs_at write_target].
    destruct (may_write who (f_mode h)); [|done]. by rewrite Hh.
  - (* the destination is a directory *)
    assert (d1 = DstDir w (<[n:=RegFile f]> ch)) as ->.
    { destruct (ch !! n) as [[g|m ns]|];
        [destruct (may_write _ _)| |destruct w]; by simplify_eq. }
    destruct (loop_dir_frame rest w (<[n:=RegFile f]> ch) Hfree)
      as (ch' & Hd & Hk).
    rewrite Hd. cbn [after_makedirs makedirs_at write_target].
    rewrite (Hk n Hnotin), lookup_insert_eq.
    destruct (may_write who (f_mode f)); [|done].
    rewrite insert_id by (by rewrite (Hk n Hnotin), lookup_insert_eq).
    rewrite <- Hd. by apply IH.
Qed.

End install_loop.

Section install.

Variable who : caller.
Variable disk : gmap string node.
Variable get_dest_map : string -> string -> gmap string string.
Variable super_invoked : manage_command -> namespace -> M pyval.

Local Abbreviation install_src :=
  (InstallCommandExt_install_src_executables who disk get_dest_map).
Local Abbreviation install :=
  (InstallCommandExt_invoked who disk get_dest_map super_invoked).

(** [_install_src_executables] once [dest_map['bin']] is found and
    [build/bin] is listed: the loop, seen from the destination, and the
    calls it makes. *)
Lemma install_src_listed (self : manage_command) (ns : namespace)
    (st : proc) (bin : string) (mode : Z) (names : list string) :
  get_dest_map (layout ns) (prefix ns) !! "bin" = Some bin ->
  disk !! InstallCommandExt_build_bin self = Some (Directory mode names) ->
  let src_dir := InstallCommandExt_build_bin self in
  let dst_dir := root ns +:+ bin in
  install_src self ns st =
    (match fst (loop_dst who disk src_dir dst_dir names (dst st)) with
     | Returned _ => Returned PyNone
     | Raised e => Raised e
     end,
     {| dst := snd (loop_dst who disk src_dir dst_dir names (dst st));
        trace := trace st
                 ++ loop_calls who disk src_dir dst_dir names (dst st) |}).
Proof.
  intros Hbin Hdir. cbn zeta.
  unfold InstallCommandExt_install_src_executables, getitem, os_listdir.
  rewrite Hbin, Hdir. unfold bind at 1, ret at 1. unfold bind at 1, ret at 1.
  unfold bind. rewrite for_each_install_eq.
  by destruct (loop_dst _ _ _ _ _) as [[[]|e] d1].
Qed.

(** Whatever happens before the loop leaves the process state alone. *)
Lemma install_src_not_listed (self : manage_command) (ns : namespace)
    (st : proc) :
  (get_dest_map (layout ns) (prefix ns) !! "bin" = None
   \/ forall mode names,
        disk !! InstallCommandExt_build_bin self
        <> Some (Directory mode names)) ->
  exists e, install_src self ns st = (Raised e, st).
Proof.
  unfold InstallCommandExt_install_src_executables, getitem, os_listdir.
  intros [Hbin | Hdir].
  - rewrite Hbin. by eexists.
  - destruct (get_dest_map _ _ !! "bin"); [|by eexists].
    unfold bind at 1, ret at 1.
    destruct (disk !! _) as [[f|m ns']|]; try by eexists.
    by destruct (Hdir m ns').
Qed.

(** C5, as the code has it.  When [build/bin] is listed, every run of the
    install step, whether it completes or raises, calls [shutil.copy] only
    on listed entries that are executable for the caller or named [*.exe],
    with the destination directory as target.  When the copy loop
    completes, every such entry has been copied: the calls made are, for
    each of them and in the order of the listing, [os.makedirs] on the
    destination, the log record and [shutil.copy], and nothing for any
    other entry; every entry copied is a regular file the caller may read;
    and when the destination is a directory, or is missing and can be
    made, it ends up with each of these entries under its own name
    (contents and permission bits), and is otherwise as it was. *)
Theorem install_copies_exactly_selected (self : manage_command)
    (ns : namespace) (st : proc) (bin : string) (mode : Z)
    (names : list string) :
  get_dest_map (layout ns) (prefix ns) !! "bin" = Some bin ->
  disk !! InstallCommandExt_build_bin self = Some (Directory mode names) ->
  let src_dir := InstallCommandExt_build_bin self in
  let dst_dir := root ns +:+ bin in
  (exists evs,
     trace (snd (install_src self ns st)) = trace st ++ evs
     /\ forall src dst,
          In (EvCopy src dst) evs ->
          dst = dst_dir
          /\ exists n, In n names
                       /\ installable who disk src_dir n = true
                       /\ src = os_path_join src_dir n)
  /\ forall st',
       install_src self ns st = (Returned PyNone, st') ->
       trace st' = trace st ++ flat_map (calls_for who disk src_dir dst_dir) names
       /\ (forall n, In n names -> installable who disk src_dir n = true ->
           In (EvCopy (os_path_join src_dir n) dst_dir)
              (flat_map (calls_for who disk src_dir dst_dir) names))
       /\ Forall (fun n => installable who disk src_dir n = true ->
                    exists f, disk !! os_path_join src_dir n = Some (RegFile f)
                              /\ may_read who (f_mode f) = true) names
       /\ (Forall (fun n => slash_free n = true) names ->
           (forall n, In n names ->
              In (EvCopy (os_path_join src_dir n) dst_dir)
                 (flat_map (calls_for who disk src_dir dst_dir) names)
              <-> installable who disk src_dir n = true)
           /\ forall w ch,
                start_dir (dst st) = Some (w, ch) ->
                dst st' =
                  match List.filter (installable who disk src_dir) names with
                  | [] => dst st
                  | sel => DstDir w (foldl (with_copy disk src_dir) ch sel)
                  end).
Proof.
  intros Hbin Hdir src_dir dst_dir.
  rewrite (install_src_listed _ _ _ _ _ _ Hbin Hdir).
  fold src_dir dst_dir. cbn [snd trace]. split.
  { eexists. split; [done|]. intros src dst. apply loop_calls_copy. }
  intros st' Hrun.
  destruct (loop_dst who disk src_dir dst_dir names (dst st))
    as [[[]|e] d1] eqn:Hloop; [|done].
  cbn [fst snd] in Hrun. injection Hrun as <-. cbn [trace dst].
  destruct (loop_completed _ _ _ _ _ _ _ Hloop) as [-> Hall].
  split; [done|]. split.
  { intros n Hin Hsel. apply in_flat_map. exists n. split; [done|].
    unfold calls_for. rewrite Hsel. do 2 right. by left. }
  split; [done|]. intros Hfree. split.
  - intros n Hin. by apply copy_call_iff.
  - intros w ch Hstart. by eapply loop_completed_dir.
Qed.

(** C6.  Running [_install_src_executables] a second time, on the state
    the first run left and with [build/bin] unchanged, leaves the
    destination exactly as the first run left it: same names, same
    contents, same permission bits.  This holds whether or not the first
    run raised.  The listing of a directory has distinct names without
    slashes. *)
Theorem install_twice_same_destination (self : manage_command)
    (ns : namespace) (st : proc) :
  (forall mode names,
     disk !! InstallCommandExt_build_bin self = Some (Directory mode names) ->
     listing_ok names) ->
  let once := snd (install_src self ns st) in
  let twice := snd (install_src self ns once) in
  dst twice = dst once.
Proof.
  intros Hok. cbn zeta.
  destruct (get_dest_map (layout ns) (prefix ns) !! "bin") as [bin|] eqn:Hbin.
  2:{ destruct (install_src_not_listed self ns st) as [e ->]; [by left|].
      cbn [snd].
      by destruct (install_src_not_listed self ns st) as [e' ->];
        [by left|]. }
  destruct (disk !! InstallCommandExt_build_bin self) as [[f|mode names]|]
    eqn:Hdir.
  1,3: destruct (install_src_not_listed self ns st) as [e ->];
       [right; congruence|]; cbn [snd];
       by destruct (install_src_not_listed self ns st) as [e' ->];
         [right; congruence|].
  destruct (Hok _ _ eq_refl) as [Hnodup Hfree].
  rewrite !(install_src_listed _ _ _ _ _ _ Hbin Hdir). cbn [snd dst].
  by apply loop_idempotent.
Qed.

(** C7, as the code has it.  [_install_src_executables] has no return
    statement: when the copy loop completes the value returned is [None].
    The number of files copied shows only in the trace, as one log record
    and one [shutil.copy] call for each selected entry. *)
Theorem install_returns_none (self : manage_command) (ns : namespace)
    (st st' : proc) (v : pyval) :
  install_src self ns st = (Returned v, st') ->
  v = PyNone
  /\ exists bin mode names,
       get_dest_map (layout ns) (prefix ns) !! "bin" = Some bin
       /\ disk !! InstallCommandExt_build_bin self
          = Some (Directory mode names)
       /\ let src_dir := InstallCommandExt_build_bin self in
          let calls := flat_map (calls_for who disk src_dir (root ns +:+ bin))
                         names in
          let selected := List.filter (installable who disk src_dir) names in
          trace st' = trace st ++ calls
          /\ length (List.filter is_copy calls) = length selected
          /\ length (List.filter is_log calls) = length selected.
Proof.
  intros Hrun.
  destruct (get_dest_map (layout ns) (prefix ns) !! "bin") as [bin|] eqn:Hbin.
  2:{ destruct (install_src_not_listed self ns st) as [e He]; [by left|].
      congruence. }
  destruct (disk !! InstallCommandExt_build_bin self) as [[f|mode names]|]
    eqn:Hdir.
  1,3: destruct (install_src_not_listed self ns st) as [e He];
       [right; congruence|]; congruence.
  rewrite (install_src_listed _ _ _ _ _ _ Hbin Hdir) in Hrun.
  destruct (loop_dst _ _ _ _ _) as [[[]|e] d1] eqn:Hloop; [|done].
  cbn [fst snd] in Hrun. injection Hrun as <- <-. split; [done|].
  exists bin, mode, names. repeat split; try done; cbn [trace].
  - by destruct (loop_completed _ _ _ _ _ _ _ Hloop) as [-> _].
  - clear. induction names as [|n rest IH]; [done|].
    cbn [flat_map List.filter]. rewrite List.filter_app, length_app, IH.
    unfold calls_for. by destruct (installable _ _ _ n).
  - clear. induction names as [|n rest IH]; [done|].
    cbn [flat_map List.filter]. rewrite List.filter_app, length_app, IH.
    unfold calls_for. by destruct (installable _ _ _ n).
Qed.


End install.

(** * The sample provider: the properties at work *)

(** In real mode build and clean return [None] whatever the child
    returned; an exception of [subprocess.call] passes through. *)
Lemma real_mode_result (gettext : string -> string)
    (disk : gmap string node) (spawn : command -> string -> outcome Z)
    (a : subcommand) (self : manage_command) (ns : namespace) (st : proc)
    (cmd : string) :
  configured_cmd a self = Some cmd ->
  os_path_isdir disk (os_path_join (location self) "src") = true ->
  dry_run ns = false ->
  invoke gettext disk spawn a self ns st =
    (after_call (spawn (Shell cmd) (location self)),
     logged st [EvSpawn (Shell cmd) (location self)]).
Proof.
  intros Hcmd Hdir Hdry.
  destruct a; cbn [invoke configured_cmd] in *;
    unfold BuildCommand_invoked, CleanCommand_invoked,
      BuildCommand_src_dir, CleanCommand_src_dir;
    rewrite Hcmd, Hdir, Hdry; cbn [negb];
    unfold bind, ret, lift, subprocess_call, emit, logged;
    by destruct (spawn _ _).
Qed.

(** C1.  With [build_cmd] (and with [clean_cmd]) set to [exit 7], a shell
    child that exits with status 7, and [src/] present, build and clean in
    real mode call the shell and return [None], which [SystemExit] turns
    into exit status 0: the status of the child is dropped. *)
Theorem real_mode_drops_exit_status :
  sample_spawn (Shell "exit 7") "/p" = Returned 7
  /\ BuildCommand_invoked no_gettext sample_disk sample_spawn
       (with_cmd "build_cmd" (Some "exit 7")) ns_real fresh
     = (Returned PyNone, logged fresh [EvSpawn (Shell "exit 7") "/p"])
  /\ CleanCommand_invoked no_gettext sample_disk sample_spawn
       (with_cmd "clean_cmd" (Some "exit 7")) ns_real fresh
     = (Returned PyNone, logged fresh [EvSpawn (Shell "exit 7") "/p"])
  /\ exit_status PyNone = 0.
Proof.
  split; [reflexivity|]. split; [|split; [|reflexivity]].
  - refine (real_mode_result no_gettext sample_disk sample_spawn Build
              (with_cmd "build_cmd" (Some "exit 7")) ns_real fresh "exit 7"
              _ _ _); by vm_compute.
  - refine (real_mode_result no_gettext sample_disk sample_spawn Clean
              (with_cmd "clean_cmd" (Some "exit 7")) ns_real fresh "exit 7"
              _ _ _); by vm_compute.
Qed.

Lemma unset_command_witness :
  configured_cmd Build (with_cmd "clean_cmd" (Some "rm -rf build/bin")) = None
  /\ invoke no_gettext sample_disk sample_spawn Build
       (with_cmd "clean_cmd" (Some "rm -rf build/bin")) ns_dry fresh
     = (Returned (PyInt 1),
        logged fresh
          [EvPrint (no_gettext (undefined_message Build));
           EvPrint (no_gettext "Add it to manage.py and try again")]).
Proof.
  split; [by vm_compute|].
  refine (unset_command_returns_1 no_gettext sample_disk sample_spawn Build
            (with_cmd "clean_cmd" (Some "rm -rf build/bin")) ns_dry fresh _).
  by vm_compute.
Defined.

Lemma missing_src_witness :
  configured_cmd Clean sample = Some "rm -rf build/bin"
  /\ os_path_isdir bare_disk (os_path_join (location sample) "src") = false
  /\ invoke no_gettext bare_disk sample_spawn Clean sample ns_real fresh
     = (Returned (PyInt 1),
        logged fresh [EvPrint (no_gettext "The src/ directory doesn't exist")]).
Proof.
  split; [by vm_compute|]. split; [by vm_compute|].
  refine (missing_src_returns_1 no_gettext bare_disk sample_spawn Clean
            sample ns_real fresh "rm -rf build/bin" _ _); by vm_compute.
Defined.

(** A command string with an unclosed quote is not the make invocation,
    yet in a dry run it is not printed: [shlex.split] raises [ValueError]
    before anything is printed or spawned. *)
Lemma clean_dry_run_unclosed_quote :
  shlex.split unclosed_cmd <> Returned (make_tokens Clean)
  /\ os_path_isdir sample_disk (os_path_join "/p" "src") = true
  /\ CleanCommand_invoked no_gettext sample_disk sample_spawn
       (with_cmd "clean_cmd" (Some unclosed_cmd)) ns_dry fresh
     = (Raised (ValueError "No closing quotation"), fresh)
  /\ CleanCommand_invoked no_gettext sample_disk sample_spawn
       (with_cmd "clean_cmd" (Some unclosed_cmd)) ns_dry fresh
     <> (Returned PyNone, logged fresh [EvPrint unclosed_cmd]).
Proof.
  assert (CleanCommand_invoked no_gettext sample_disk sample_spawn
            (with_cmd "clean_cmd" (Some unclosed_cmd)) ns_dry fresh
          = (Raised (ValueError "No closing quotation"), fresh)) as Hrun
    by (by vm_compute).
  split; [by vm_compute|]. split; [by vm_compute|]. split; [done|].
  by rewrite Hrun.
Qed.

Lemma dry_run_of_tokenized_command_witness :
  configured_cmd Clean (with_cmd "clean_cmd" (Some "make -C src clean"))
  = Some "make -C src clean"
  /\ os_path_isdir sample_disk (os_path_join "/p" "src") = true
  /\ dry_run ns_dry = true
  /\ shlex.split "make -C src clean" = Returned ["make"; "-C"; "src"; "clean"]
  /\ invoke no_gettext sample_disk sample_spawn Clean
       (with_cmd "clean_cmd" (Some "make -C src clean")) ns_dry fresh
     = (Returned PyNone,
        logged fresh
          [EvSpawn (Argv ["make"; "-C"; "src"; "clean"; "-n"]) "/p"]).
Proof.
  repeat (split; [by vm_compute|]).
  refine (dry_run_of_tokenized_command no_gettext sample_disk sample_spawn
            Clean (with_cmd "clean_cmd" (Some "make -C src clean")) ns_dry
            fresh "make -C src clean" ["make"; "-C"; "src"; "clean"]
            _ _ _ _); by vm_compute.
Defined.

Lemma build_dry_run_witness :
  dry_run ns_dry = true
  /\ let r := BuildCommand_invoked no_gettext sample_disk sample_spawn
                sample ns_dry fresh in
     dst (snd r) = dst fresh
     /\ exists evs : list event,
          trace (snd r) = trace fresh ++ evs
          /\ forallb build_dry_run_event evs = true
          /\ forallb (fun ev => negb (mutates_filesystem ev)) evs = true.
Proof.
  split; [reflexivity|].
  refine (build_dry_run_touches_nothing no_gettext sample_disk sample_spawn
            sample ns_dry fresh _). reflexivity.
Defined.

Lemma empty_command_witness :
  configured_cmd Build (with_cmd "build_cmd" (Some "")) = Some ""
  /\ invoke no_gettext sample_disk sample_spawn Build
       (with_cmd "build_cmd" (Some "")) ns_real fresh
     = (Returned PyNone, logged fresh [EvSpawn (Shell "") "/p"]).
Proof.
  split; [by vm_compute|].
  refine (empty_command_is_configured no_gettext sample_disk sample_spawn
            Build (with_cmd "build_cmd" (Some "")) ns_real fresh _).
  by vm_compute.
Defined.

(** C5, refuted as stated.  [build/bin] is listed and holds the directory
    [plugins] before the executable [hello].  Both pass the selection test;
    [shutil.copy] raises on the directory, the loop ends there, and [hello]
    is never copied. *)
Lemma install_stops_at_directory_entry :
  plugins_disk !! "/p/build/bin" = Some (Directory 493 ["plugins"; "hello"])
  /\ installable Owner plugins_disk "/p/build/bin" "hello" = true
  /\ InstallCommandExt_install_src_executables Owner plugins_disk sample_dest_map
       sample ns_real fresh
     = (Raised (IsADirectoryError "/p/build/bin/plugins"),
        {| dst := DstDir true ∅;
           trace := [EvMakedirs sample_dst_dir;
                     EvLogInfo "/p/build/bin/plugins" sample_dst_dir;
                     EvCopy "/p/build/bin/plugins" sample_dst_dir] |})
  /\ ~ In (EvCopy "/p/build/bin/hello" sample_dst_dir)
         (trace (snd (InstallCommandExt_install_src_executables Owner plugins_disk
                        sample_dest_map sample ns_real fresh))).
Proof.
  assert (InstallCommandExt_install_src_executables Owner plugins_disk
            sample_dest_map sample ns_real fresh
          = (Raised (IsADirectoryError "/p/build/bin/plugins"),
             {| dst := DstDir true ∅;
                trace := [EvMakedirs sample_dst_dir;
                          EvLogInfo "/p/build/bin/plugins" sample_dst_dir;
                          EvCopy "/p/build/bin/plugins" sample_dst_dir] |}))
    as Hrun by (by vm_compute).
  split; [by vm_compute|]. split; [by vm_compute|]. split; [done|].
  rewrite Hrun. cbn. intros [H|[H|[H|[]]]]; discriminate H.
Qed.

(** The sample tree: the executable, the text file and the Windows binary.
    Exactly the first and the third are copied. *)
Lemma install_copies_exactly_selected_witness :
  sample_dest_map (layout ns_real) (prefix ns_real) !! "bin"
  = Some sample_dst_dir
  /\ sample_disk !! InstallCommandExt_build_bin sample
     = Some (Directory 493 ["hello"; "notes.txt"; "tool.exe"])
  /\ InstallCommandExt_install_src_executables Owner sample_disk sample_dest_map
       sample ns_real fresh
     = (Returned PyNone, installed_once)
  /\ trace installed_once
     = [EvMakedirs sample_dst_dir;
        EvLogInfo "/p/build/bin/hello" sample_dst_dir;
        EvCopy "/p/build/bin/hello" sample_dst_dir;
        EvMakedirs sample_dst_dir;
        EvLogInfo "/p/build/bin/tool.exe" sample_dst_dir;
        EvCopy "/p/build/bin/tool.exe" sample_dst_dir]
  /\ dst installed_once
     = DstDir true (<["tool.exe" := RegFile tool_exe]>
                      (<["hello" := RegFile hello]> ∅)).
Proof.
  assert (sample_dest_map (layout ns_real) (prefix ns_real) !! "bin"
          = Some sample_dst_dir) as Hbin by (by vm_compute).
  assert (sample_disk !! InstallCommandExt_build_bin sample
          = Some (Directory 493 ["hello"; "notes.txt"; "tool.exe"])) as Hdir
    by (by vm_compute).
  assert (InstallCommandExt_install_src_executables Owner sample_disk
            sample_dest_map sample ns_real fresh
          = (Returned PyNone, installed_once)) as Hrun by (by vm_compute).
  destruct (install_copies_exactly_selected Owner sample_disk sample_dest_map
              sample ns_real fresh sample_dst_dir 493
              ["hello"; "notes.txt"; "tool.exe"] Hbin Hdir)
    as [_ Hdone].
  destruct (Hdone installed_once Hrun) as (Htrace & _ & _ & Hfree).
  split; [exact Hbin|]. split; [exact Hdir|]. split; [exact Hrun|].
  split; [exact Htrace|].
  exact (proj2 (Hfree ltac:(repeat constructor)) true ∅ eq_refl).
Defined.

Lemma install_twice_witness :
  (forall mode names,
     sample_disk !! InstallCommandExt_build_bin sample
     = Some (Directory mode names) -> listing_ok names)
  /\ dst (snd (InstallCommandExt_install_src_executables Owner sample_disk
                 sample_dest_map sample ns_real installed_once))
     = dst installed_once.
Proof.
  assert (forall mode names,
            sample_disk !! InstallCommandExt_build_bin sample
            = Some (Directory mode names) -> listing_ok names) as Hok.
  { intros mode names H. vm_compute in H. injection H as <- <-.
    split; [|by repeat constructor].
    apply (bool_decide_unpack _). by vm_compute. }
  split; [exact Hok|].
  exact (install_twice_same_destination Owner sample_disk sample_dest_map sample
           ns_real fresh Hok).
Defined.

(** C7, refuted as stated.  On the sample tree two files are copied and
    the value returned is [None], not 2. *)
Lemma install_returns_none_not_count :
  fst (InstallCommandExt_install_src_executables Owner sample_disk sample_dest_map
         sample ns_real fresh) = Returned PyNone
  /\ length (List.filter is_copy (trace installed_once)) = 2%nat
  /\ fst (InstallCommandExt_install_src_executables Owner sample_disk
            sample_dest_map sample ns_real fresh) <> Returned (PyInt 2).
Proof.
  assert (fst (InstallCommandExt_install_src_executables Owner sample_disk
                 sample_dest_map sample ns_real fresh) = Returned PyNone)
    as Hret by (by vm_compute).
  split; [done|]. split; [by vm_compute|]. by rewrite Hret.
Qed.

Lemma install_returns_none_witness :
  InstallCommandExt_install_src_executables Owner sample_disk sample_dest_map
    sample ns_real fresh = (Returned PyNone, installed_once)
  /\ PyNone = PyNone
  /\ exists bin mode names,
       sample_dest_map (layout ns_real) (prefix ns_real) !! "bin" = Some bin
       /\ sample_disk !! InstallCommandExt_build_bin sample
          = Some (Directory mode names)
       /\ let src_dir := InstallCommandExt_build_bin sample in
          let calls := flat_map (calls_for Owner sample_disk src_dir
                                   (root ns_real +:+ bin)) names in
          let selected := List.filter (installable Owner sample_disk src_dir)
                            names in
          trace installed_once = trace fresh ++ calls
          /\ length (List.filter is_copy calls) = length selected
          /\ length (List.filter is_log calls) = length selected.
Proof.
  assert (InstallCommandExt_install_src_executables Owner sample_disk
            sample_dest_map sample ns_real fresh
          = (Returned PyNone, installed_once)) as Hrun by (by vm_compute).
  split; [exact Hrun|].
  exact (install_returns_none Owner sample_disk sample_dest_map sample ns_real
           fresh installed_once PyNone Hrun).
Defined.



(** * The registry of subcommands *)

Section registry.

Variable ManageCommand : pyclass.

Local Abbreviation register := (manage_py_extension ManageCommand).

Lemma subclass_neq_base (base : pyclass) (n : string) (f : option bool) :
  subclass n f base <> base.
Proof.
  revert n f. induction base as [|n' f' base IH]; intros n f; [done|].
  intros [= -> -> H]. by apply (IH n' f').
Qed.

Lemma list_index_Some (x : pyclass) (l : list pyclass) (i : nat) :
  list_index x l = Some i ->
  l !! i = Some x /\ forall j, (j < i)%nat -> l !! j <> Some x.
Proof.
  revert i. induction l as [|y l IH]; intros i; cbn [list_index]; [done|].
  destruct (decide (y = x)) as [->|Hne].
  - intros [= <-]. split; [done|]. intros j Hj. by apply Nat.nlt_0_r in Hj.
  - destruct (list_index x l) as [k|]; [|done]. intros [= <-].
    destruct (IH k eq_refl) as [Hk Hfirst]. split; [done|].
    intros [|j] Hj; cbn; [congruence|]. apply Hfirst.
    by apply Nat.succ_lt_mono.
Qed.

Lemma list_index_None (x : pyclass) (l : list pyclass) :
  list_index x l = None <-> x ∉ l.
Proof.
  induction l as [|y l IH]; cbn [list_index].
  { split; [intros _; apply not_elem_of_nil | done]. }
  rewrite not_elem_of_cons.
  destruct (decide (y = x)) as [->|Hne]; [split; [done | tauto]|].
  destruct (list_index x l); cbn.
  - split; [done|]. intros [_ Hnot]. by apply IH in Hnot.
  - split; [|done]. intros _. split; [done | by apply IH].
Qed.

Lemma list_index_elem (x : pyclass) (l : list pyclass) :
  x ∈ l -> exists i, list_index x l = Some i.
Proof.
  intros Hin. destruct (list_index x l) as [i|] eqn:Hi; [by exists i|].
  by apply list_index_None in Hi.
Qed.

(** [del l[i]] followed by [l.insert(i, x)] puts [x] in the place of
    [l[i]]. *)
Lemma delete_then_insert (i : nat) (x : pyclass) (l : list pyclass) :
  (i < length l)%nat -> list_insert_at i x (delete i l) = <[i:=x]> l.
Proof.
  revert i. induction l as [|y l IH]; intros [|i] Hi; cbn in *;
    try by apply Nat.nlt_0_r in Hi.
  - done.
  - unfold list_insert_at in IH. cbn. f_equal. apply IH.
    by apply Nat.succ_lt_mono.
Qed.

(** Putting [y] where something other than [x] was does not move the
    first [x], unless [y] is [x]. *)
Lemma list_index_insert_other (x y : pyclass) (l : list pyclass)
    (i j : nat) :
  list_index x l = Some j -> i <> j -> y <> x ->
  list_index x (<[i:=y]> l) = Some j.
Proof.
  revert i j. induction l as [|z l IH]; intros i j; cbn [list_index]; [done|].
  destruct (decide (z = x)) as [->|Hne].
  - intros [= <-] Hi Hy. destruct i; [done|].
    change (<[S i:=y]> (x :: l)) with (x :: <[i:=y]> l).
    cbn [list_index]. by rewrite decide_True.
  - destruct (list_index x l) as [k|] eqn:Hk; [|done]. intros [= <-] Hi Hy.
    destruct i as [|i].
    + change (<[0%nat:=y]> (z :: l)) with (y :: l).
      cbn [list_index]. by rewrite decide_False, Hk.
    + change (<[S i:=y]> (z :: l)) with (z :: <[i:=y]> l).
      cbn [list_index]. rewrite decide_False by done.
      by rewrite (IH i k) by congruence.
Qed.

(** A class put in the place of another is found there, when it was
    nowhere in the list before. *)
Lemma list_index_insert_fresh (y : pyclass) (l : list pyclass) (i : nat) :
  (i < length l)%nat -> y ∉ l -> list_index y (<[i:=y]> l) = Some i.
Proof.
  revert i. induction l as [|z l IH]; intros i Hi Hnot; cbn in Hi;
    [by apply Nat.nlt_0_r in Hi|].
  apply not_elem_of_cons in Hnot as [Hyz Hnot].
  destruct i as [|i].
  - change (<[0%nat:=y]> (z :: l)) with (y :: l).
    cbn [list_index]. by rewrite decide_True.
  - change (<[S i:=y]> (z :: l)) with (z :: <[i:=y]> l).
    cbn [list_index]. rewrite decide_False by done.
    rewrite IH; [done | by apply Nat.succ_lt_mono | done].
Qed.

(** A new subcommand goes to the end of the list. *)
Lemma register_new (cls : pyclass) (cmd_list : list pyclass) :
  first_base cls = Some ManageCommand ->
  register cls cmd_list = (inr cls, cmd_list ++ [cls]).
Proof.
  intros Hbase. unfold manage_py_extension.
  by rewrite Hbase, decide_True.
Qed.

(** The two ways of the override branch. *)
Lemma register_found (cls orig : pyclass) (cmd_list : list pyclass)
    (i : nat) :
  first_base cls = Some orig ->
  orig <> ManageCommand ->
  list_index orig cmd_list = Some i ->
  register cls cmd_list = (inr cls, <[i:=cls]> cmd_list).
Proof.
  intros Hbase Hne Hidx. destruct (list_index_Some _ _ _ Hidx) as [Hi _].
  assert (i < length cmd_list)%nat as Hlt by by eapply lookup_lt_Some.
  unfold manage_py_extension.
  by rewrite Hbase, decide_False, Hidx, delete_then_insert.
Qed.

Lemma register_not_found (cls orig : pyclass) (cmd_list : list pyclass) :
  first_base cls = Some orig ->
  orig <> ManageCommand ->
  orig ∉ cmd_list ->
  register cls cmd_list = (inl ValueError_not_in_list, cmd_list).
Proof.
  intros Hbase Hne Hnot. apply list_index_None in Hnot.
  unfold manage_py_extension. by rewrite Hbase, decide_False, Hnot.
Qed.

(** X1.  An override is put in the place of the class it derives from: the
    decorator returns the class, the list keeps its length, the class sits
    at the first position of its base, and every other position is as it
    was. *)
Theorem override_replaces_in_place (cls orig : pyclass)
    (cmd_list : list pyclass) (i : nat) :
  first_base cls = Some orig ->
  orig <> ManageCommand ->
  list_index orig cmd_list = Some i ->
  exists patched,
    register cls cmd_list = (inr cls, patched)
    /\ length patched = length cmd_list
    /\ cmd_list !! i = Some orig
    /\ (forall j, (j < i)%nat -> cmd_list !! j <> Some orig)
    /\ patched !! i = Some cls
    /\ forall j, j <> i -> patched !! j = cmd_list !! j.
Proof.
  intros Hbase Hne Hidx. destruct (list_index_Some _ _ _ Hidx) as [Hi Hfirst].
  assert (i < length cmd_list)%nat as Hlt by by eapply lookup_lt_Some.
  exists (<[i:=cls]> cmd_list).
  rewrite (register_found _ _ _ _ Hbase Hne Hidx).
  repeat split; try done.
  - apply length_insert.
  - by apply list_lookup_insert_eq.
  - intros j Hj. by apply list_lookup_insert_ne.
Qed.

(** X2.  The decorator succeeds exactly when the first base of the class
    is [ManageCommand] or is in the list.  For any other base it raises the
    [ValueError] of [list.index], and the list is as it was. *)
Theorem register_needs_registered_base (cls orig : pyclass)
    (cmd_list : list pyclass) :
  first_base cls = Some orig ->
  (fst (register cls cmd_list) = inr cls
   <-> orig = ManageCommand \/ orig ∈ cmd_list)
  /\ (orig <> ManageCommand -> orig ∉ cmd_list ->
      register cls cmd_list = (inl ValueError_not_in_list, cmd_list)).
Proof.
  intros Hbase. split; [|by apply register_not_found].
  destruct (decide (orig = ManageCommand)) as [Heq|Hne].
  { unfold manage_py_extension. rewrite Hbase, decide_True by done.
    cbn. tauto. }
  destruct (list_index orig cmd_list) as [i|] eqn:Hidx.
  - rewrite (register_found _ _ _ _ Hbase Hne Hidx).
    destruct (list_index_Some _ _ _ Hidx) as [Hi _].
    apply list_elem_of_lookup_2 in Hi. cbn. tauto.
  - apply list_index_None in Hidx.
    rewrite (register_not_found _ _ _ Hbase Hne Hidx). cbn.
    split; [done|]. tauto.
Qed.

(** X3.  A stock command can be overridden once.  When a list without
    repeats holds [orig], the first subclass of [orig] that is decorated
    takes its place, and a second subclass of [orig] decorated after it
    raises [ValueError] and leaves the list alone. *)
Theorem second_override_raises (orig : pyclass) (cmd_list : list pyclass)
    (n1 n2 : string) (f1 f2 : option bool) :
  NoDup cmd_list ->
  orig ∈ cmd_list ->
  orig <> ManageCommand ->
  let patched := snd (register (subclass n1 f1 orig) cmd_list) in
  fst (register (subclass n1 f1 orig) cmd_list) = inr (subclass n1 f1 orig)
  /\ register (subclass n2 f2 orig) patched
     = (inl ValueError_not_in_list, patched).
Proof.
  intros Hnodup Hin Hne. cbn zeta.
  destruct (list_index_elem _ _ Hin) as [i Hidx].
  destruct (list_index_Some _ _ _ Hidx) as [Hi _].
  assert (i < length cmd_list)%nat as Hlt by by eapply lookup_lt_Some.
  rewrite (register_found (subclass n1 f1 orig) orig cmd_list i eq_refl
             Hne Hidx).
  cbn [fst snd]. split; [done|].
  apply (register_not_found _ orig); [done..|].
  intros (j & Hj)%list_elem_of_lookup_1.
  destruct (decide (j = i)) as [->|Hji].
  - rewrite list_lookup_insert_eq in Hj by done.
    injection Hj as Hj. by apply subclass_neq_base in Hj.
  - rewrite list_lookup_insert_ne in Hj by done.
    by apply Hji, (NoDup_lookup cmd_list j i orig).
Qed.

(** X4.  An override can itself be overridden: a subclass of the class
    that took the place of [orig] takes that same place. *)
Theorem override_of_override (orig : pyclass) (cmd_list : list pyclass)
    (i : nat) (n1 n3 : string) (f1 f3 : option bool) :
  list_index orig cmd_list = Some i ->
  orig <> ManageCommand ->
  subclass n1 f1 orig <> ManageCommand ->
  subclass n1 f1 orig ∉ cmd_list ->
  let cls1 := subclass n1 f1 orig in
  let cls3 := subclass n3 f3 cls1 in
  register cls3 (snd (register cls1 cmd_list))
  = (inr cls3, <[i:=cls3]> cmd_list).
Proof.
  intros Hidx Hne Hne1 Hfresh. cbn zeta.
  destruct (list_index_Some _ _ _ Hidx) as [Hi _].
  assert (i < length cmd_list)%nat as Hlt by by eapply lookup_lt_Some.
  rewrite (register_found (subclass n1 f1 orig) orig cmd_list i eq_refl
             Hne Hidx).
  cbn [snd].
  rewrite (register_found (subclass n3 f3 (subclass n1 f1 orig))
             (subclass n1 f1 orig) _ i eq_refl Hne1)
    by by apply list_index_insert_fresh.
  by rewrite list_insert_insert_eq.
Qed.

End registry.

Section module_import.

Variables ManageCommand InstallCommand SourceDistributionCommand : pyclass.

Local Abbreviation SDistExt :=
  (SourceDistributionCommandExt SourceDistributionCommand).
Local Abbreviation InstExt := (InstallCommandExt InstallCommand).
Local Abbreviation BuildCls := (BuildCommand ManageCommand).
Local Abbreviation CleanCls := (CleanCommand ManageCommand).
Local Abbreviation import :=
  (import_manage_ext ManageCommand InstallCommand SourceDistributionCommand).

Lemma not_elem_of_insert (x y : pyclass) (l : list pyclass) (i : nat) :
  x ∉ l -> x <> y -> x ∉ <[i:=y]> l.
Proof.
  intros Hnot Hne (k & Hk)%list_elem_of_lookup_1.
  destruct (decide (k = i)) as [->|Hki].
  - destruct (decide (i < length l)%nat) as [Hlt|Hge].
    + rewrite list_lookup_insert_eq in Hk by done. congruence.
    + rewrite list_insert_ge in Hk by lia.
      by apply Hnot, (list_elem_of_lookup_2 l i).
  - rewrite list_lookup_insert_ne in Hk by done.
    by apply Hnot, (list_elem_of_lookup_2 l k).
Qed.

(** The registry after an import that finds both stock commands. *)
Lemma import_found (stock : list pyclass) (i j : nat) :
  list_index SourceDistributionCommand stock = Some i ->
  list_index InstallCommand stock = Some j ->
  SourceDistributionCommand <> ManageCommand ->
  InstallCommand <> ManageCommand ->
  InstallCommand <> SourceDistributionCommand ->
  InstallCommand <> SDistExt ->
  import stock =
    (None, <[j:=InstExt]> (<[i:=SDistExt]> stock) ++ [BuildCls; CleanCls]).
Proof.
  intros Hi Hj Hs Hc Hne Hext. unfold import_manage_ext.
  rewrite (register_found _ SDistExt SourceDistributionCommand stock i
             eq_refl Hs Hi).
  assert (i <> j) as Hij.
  { intros ->. apply list_index_Some in Hi as [Hi _].
    apply list_index_Some in Hj as [Hj _]. congruence. }
  rewrite (register_found _ InstExt InstallCommand _ j eq_refl Hc)
    by (apply list_index_insert_other; [done | done | congruence]).
  rewrite (register_new _ BuildCls _ eq_refl).
  rewrite (register_new _ CleanCls _ eq_refl).
  by rewrite <- app_assoc.
Qed.

(** X5.  Importing the module into a registry that holds the stock sdist
    and install commands gives a registry two entries longer: the two
    overrides sit where the stock commands were, every other stock entry
    is where it was, and build and clean come last, in that order. *)
Theorem import_patches_registry (stock : list pyclass) (i j : nat) :
  list_index SourceDistributionCommand stock = Some i ->
  list_index InstallCommand stock = Some j ->
  SourceDistributionCommand <> ManageCommand ->
  InstallCommand <> ManageCommand ->
  InstallCommand <> SourceDistributionCommand ->
  InstallCommand <> SDistExt ->
  exists registry,
    import stock = (None, registry)
    /\ length registry = (length stock + 2)%nat
    /\ registry !! i = Some SDistExt
    /\ registry !! j = Some InstExt
    /\ (forall k, k <> i -> k <> j -> (k < length stock)%nat ->
        registry !! k = stock !! k)
    /\ registry !! length stock = Some BuildCls
    /\ registry !! S (length stock) = Some CleanCls.
Proof.
  intros Hi Hj Hs Hc Hne Hext.
  rewrite (import_found stock i j Hi Hj Hs Hc Hne Hext).
  eexists. split; [done|].
  assert (i <> j) as Hij.
  { intros ->. apply list_index_Some in Hi as [Hi _].
    apply list_index_Some in Hj as [Hj _]. congruence. }
  apply list_index_Some in Hi as [Hi _]. apply list_index_Some in Hj as [Hj _].
  apply lookup_lt_Some in Hi, Hj.
  set (patched := <[j:=InstExt]> (<[i:=SDistExt]> stock)).
  assert (length patched = length stock) as Hlen
    by (unfold patched; by rewrite !length_insert).
  repeat split.
  - rewrite length_app, Hlen. done.
  - rewrite lookup_app_l by lia. unfold patched.
    rewrite list_lookup_insert_ne by done.
    by apply list_lookup_insert_eq.
  - rewrite lookup_app_l by lia. unfold patched.
    apply list_lookup_insert_eq. by rewrite length_insert.
  - intros k Hki Hkj Hk. rewrite lookup_app_l by lia. unfold patched.
    by rewrite !list_lookup_insert_ne.
  - rewrite lookup_app_r by lia. by rewrite Hlen, Nat.sub_diag.
  - rewrite lookup_app_r by lia.
    by replace (S (length stock) - length patched)%nat with 1%nat by lia.
Qed.

(** X6.  The import needs both stock commands.  Without the sdist command
    it raises [ValueError] with the registry untouched; with the sdist
    command but without the install command it raises [ValueError] after
    the sdist command has been replaced, and leaves the registry so:
    neither build nor clean is added. *)
Theorem import_needs_stock_commands (stock : list pyclass) :
  SourceDistributionCommand <> ManageCommand ->
  InstallCommand <> ManageCommand ->
  InstallCommand <> SDistExt ->
  (SourceDistributionCommand ∉ stock ->
   import stock = (Some ValueError_not_in_list, stock))
  /\ (forall i,
        list_index SourceDistributionCommand stock = Some i ->
        InstallCommand ∉ stock ->
        import stock
        = (Some ValueError_not_in_list, <[i:=SDistExt]> stock)).
Proof.
  intros Hs Hc Hext. unfold import_manage_ext. split.
  - intros Hnot.
    by rewrite (register_not_found _ SDistExt SourceDistributionCommand
                  stock eq_refl Hs Hnot).
  - intros i Hi Hnot.
    rewrite (register_found _ SDistExt SourceDistributionCommand stock i
               eq_refl Hs Hi).
    by rewrite (register_not_found _ InstExt InstallCommand _ eq_refl Hc
                  (not_elem_of_insert _ _ _ i Hnot Hext)).
Qed.

(** X7.  After the import, when no stock command takes keywords,
    [add_subcommands] builds one instance per stock entry without the
    keywords of [setup], the overrides of sdist and install among them,
    and then the build and the clean command, which alone get the
    keywords. *)
Theorem keywords_go_to_build_and_clean (stock : list pyclass) (i j : nat)
    (location : string) (keywords : gmap string (option string)) :
  list_index SourceDistributionCommand stock = Some i ->
  list_index InstallCommand stock = Some j ->
  SourceDistributionCommand <> ManageCommand ->
  InstallCommand <> ManageCommand ->
  InstallCommand <> SourceDistributionCommand ->
  InstallCommand <> SDistExt ->
  Forall (fun c => getattr_SUPPORTS_KEYWORDS c = false) stock ->
  exists insts,
    add_subcommands location keywords (snd (import stock))
    = insts
      ++ [ {| inst_class := BuildCls; inst_location := location;
              inst_keywords := Some keywords |};
           {| inst_class := CleanCls; inst_location := location;
              inst_keywords := Some keywords |} ]
    /\ map inst_class insts = <[j:=InstExt]> (<[i:=SDistExt]> stock)
    /\ Forall (fun c => inst_keywords c = None
                        /\ inst_location c = location) insts.
Proof.
  intros Hi Hj Hs Hc Hne Hext Hstock.
  rewrite (import_found stock i j Hi Hj Hs Hc Hne Hext). cbn [snd].
  unfold add_subcommands. rewrite map_app. eexists. split; [done|].
  assert (Forall (fun c => getattr_SUPPORTS_KEYWORDS c = false)
            (<[j:=InstExt]> (<[i:=SDistExt]> stock))) as Hpatched.
  { rewrite Forall_forall in Hstock.
    apply list_index_Some in Hi as [Hi _]. apply list_index_Some in Hj as [Hj _].
    apply Forall_insert; [apply Forall_insert|].
    - by apply Forall_forall.
    - cbn. by apply Hstock, (list_elem_of_lookup_2 stock i).
    - cbn. by apply Hstock, (list_elem_of_lookup_2 stock j). }
  induction Hpatched as [|c l Hcls _ IH]; [by split|].
  cbn [map]. rewrite Hcls. cbn [inst_class]. destruct IH as [-> IH].
  split; [done|]. by constructor.
Qed.

End module_import.

(** * More on build and clean *)

Section build_clean_outcomes.

Variable gettext : string -> string.
Variable who : caller.
Variable disk : gmap string node.
Variable spawn : command -> string -> outcome Z.

Local Abbreviation run := (invoke gettext disk spawn).

(** How one invocation ends, case by case. *)
Lemma invoke_cases (a : subcommand) (self : manage_command)
    (ns : namespace) (st : proc) :
  run a self ns st =
    match configured_cmd a self with
    | None =>
        (Returned (PyInt 1),
         logged st [EvPrint (gettext (undefined_message a));
                    EvPrint (gettext "Add it to manage.py and try again")])
    | Some cmd =>
        if os_path_isdir disk (os_path_join (location self) "src") then
          if dry_run ns then
            match shlex.split cmd with
            | Raised e => (Raised e, st)
            | Returned tokens =>
                if bool_decide (tokens = make_tokens a) then
                  (after_call (spawn (Argv (make_tokens a ++ ["-n"]))
                                 (location self)),
                   logged st [EvSpawn (Argv (make_tokens a ++ ["-n"]))
                                (location self)])
                else (Returned PyNone, logged st [EvPrint cmd])
            end
          else
            (after_call (spawn (Shell cmd) (location self)),
             logged st [EvSpawn (Shell cmd) (location self)])
        else
          (Returned (PyInt 1),
           logged st [EvPrint (gettext "The src/ directory doesn't exist")])
    end.
Proof.
  destruct a; cbn [invoke configured_cmd make_tokens undefined_message];
    unfold BuildCommand_invoked, CleanCommand_invoked,
      BuildCommand_src_dir, CleanCommand_src_dir.
  all: match goal with
       | |- context [match ?c with Some _ => _ | None => _ end] =>
           destruct c as [cmd|]
       end.
  all: try (unfold bind, ret, print, emit, logged; cbn [dst trace];
            by rewrite <- app_assoc).
  all: destruct (os_path_isdir disk _); cbn [negb]; [|done].
  all: destruct (dry_run ns);
    unfold bind, ret, lift, print, subprocess_call, emit, logged;
    cbn [dst trace]; [|by destruct (spawn _ _)].
  all: destruct (shlex.split cmd) as [tokens|e]; [|by destruct st].
  all: case_bool_decide; cbn [app]; [by destruct (spawn _ _) | done].
Qed.

(** X8.  Whenever build or clean returns, it returns 1 or [None]: 1
    exactly when the command string is missing or [src/] is not a
    directory, [None] in every other case, whatever the child did.  The
    exit status is never that of the child. *)
Theorem invoke_returns_1_or_None (a : subcommand) (self : manage_command)
    (ns : namespace) (st st' : proc) (v : pyval) :
  run a self ns st = (Returned v, st') ->
  (v = PyInt 1
   /\ (configured_cmd a self = None
       \/ os_path_isdir disk (os_path_join (location self) "src") = false))
  \/ (v = PyNone
      /\ exists cmd,
           configured_cmd a self = Some cmd
           /\ os_path_isdir disk (os_path_join (location self) "src") = true).
Proof.
  rewrite invoke_cases.
  destruct (configured_cmd a self) as [cmd|]; [|intros [= <- _]; left; tauto].
  destruct (os_path_isdir disk _); [|intros [= <- _]; left; tauto].
  intros Hrun. right. split; [|by exists cmd].
  destruct (dry_run ns).
  - destruct (shlex.split cmd) as [tokens|e]; [|done].
    case_bool_decide; [|by injection Hrun as <-].
    destruct (spawn _ _); [by injection Hrun as <- | done].
  - destruct (spawn _ _); [by injection Hrun as <- | done].
Qed.

(** X9.  One invocation of build or clean changes nothing but the trace,
    calls [subprocess.call] at most once, and every child it starts runs
    in the project root. *)
Theorem invoke_spawns_at_most_once (a : subcommand) (self : manage_command)
    (ns : namespace) (st : proc) :
  exists evs,
    snd (run a self ns st) = logged st evs
    /\ (length (List.filter is_spawn evs) <= 1)%nat
    /\ forallb (spawned_in (location self)) evs = true.
Proof.
  rewrite invoke_cases.
  assert (forall c, forallb (spawned_in (location self))
                      [EvSpawn c (location self)] = true) as Hin.
  { intros c. cbn. by rewrite String.eqb_refl. }
  destruct (configured_cmd a self) as [cmd|];
    [|eexists; split; [done|]; cbn; split; [lia | done]].
  destruct (os_path_isdir disk _);
    [|eexists; split; [done|]; cbn; split; [lia | done]].
  destruct (dry_run ns).
  - destruct (shlex.split cmd) as [tokens|e].
    + case_bool_decide; eexists; (split; [done|]); cbn [List.filter is_spawn length];
        (split; [lia | done]).
    + exists []. unfold logged. rewrite app_nil_r. cbn. split; [by destruct st|].
      split; [lia | done].
  - eexists; split; [done|]. cbn [List.filter is_spawn length].
    split; [lia | done].
Qed.

(** X10.  A dry run of clean, for any keywords and any file system, adds
    to the trace only lines printed and at most the dry run of make
    ([make -C src clean -n]); it makes no file-system call of its own and
    never hands the command string to a shell. *)
Theorem clean_dry_run_touches_nothing (self : manage_command)
    (ns : namespace) (st : proc) :
  dry_run ns = true ->
  let r := CleanCommand_invoked gettext disk spawn self ns st in
  dst (snd r) = dst st
  /\ exists evs : list event,
       trace (snd r) = trace st ++ evs
       /\ forallb clean_dry_run_event evs = true
       /\ forallb (fun ev => negb (mutates_filesystem ev)) evs = true.
Proof.
  intros Hdry. cbn zeta.
  change (CleanCommand_invoked gettext disk spawn) with (run Clean).
  rewrite invoke_cases, Hdry. cbn [make_tokens].
  destruct (configured_cmd Clean self) as [cmd|];
    [|split; [done|]; eexists; by split].
  destruct (os_path_isdir disk _); [|split; [done|]; eexists; by split].
  destruct (shlex.split cmd) as [tokens|e].
  - case_bool_decide; (split; [done|]); eexists; by split.
  - split; [done|]. exists []. by rewrite app_nil_r.
Qed.


End build_clean_outcomes.

(** * More on the install step *)

Section install_loop_more.

Variable who : caller.
Variable disk : gmap string node.
Variables src_dir dst_dir : string.

Local Abbreviation pass := (pass_dst who disk src_dir dst_dir).
Local Abbreviation loop := (loop_dst who disk src_dir dst_dir).
Local Abbreviation calls := (calls_for who disk src_dir dst_dir).

(** One pass on a directory leaves it alone or adds the entry. *)
Lemma pass_on_dir (n : string) (w : bool) (ch : gmap string node)
    (o : outcome unit) (d1 : dst_state) :
  slash_free n = true ->
  pass n (DstDir w ch) = (o, d1) ->
  d1 = DstDir w ch
  \/ exists f, disk !! os_path_join src_dir n = Some (RegFile f)
               /\ d1 = DstDir w (<[n:=RegFile f]> ch)
               /\ o = Returned tt.
Proof.
  intros Hn. unfold pass_dst, copy_outcome.
  destruct (installable who disk src_dir n); [|intros [= _ <-]; by left].
  cbn [after_makedirs makedirs_at]. rewrite basename_join by done.
  destruct (disk !! _) as [[f|m ns]|]; [|intros [= _ <-]; by left..].
  destruct (negb _); [intros [= _ <-]; by left|]. cbn [write_target].
  destruct (ch !! n) as [[g|m ns]|];
    [destruct (may_write _ _)| |destruct w]; intros [= <- <-];
    (by left) || (right; by exists f).
Qed.

(** The loop never removes an entry of the destination directory. *)
Lemma loop_dir_keeps (names : list string) (w : bool)
    (ch ch' : gmap string node) (k : string) :
  Forall (fun n => slash_free n = true) names ->
  snd (loop names (DstDir w ch)) = DstDir w ch' ->
  is_Some (ch !! k) -> is_Some (ch' !! k).
Proof.
  intros Hfree. revert ch.
  induction Hfree as [|n rest Hn _ IH]; intros ch; [by intros [= <-]|].
  rewrite loop_cons.
  destruct (pass n (DstDir w ch)) as [o d1] eqn:Hp.
  destruct (pass_on_dir _ _ _ _ _ Hn Hp) as [->|(f & _ & -> & ->)].
  - destruct o as [[]|e]; [apply IH | by intros [= <-]].
  - intros Hrest Hk. apply (IH _ Hrest).
    rewrite lookup_insert_is_Some. destruct (decide (n = k)); tauto.
Qed.

(** A loop that completes on a regular file in the place of the
    destination leaves there the last entry it copied. *)
Lemma loop_completed_file (names : list string) (g : file)
    (d' : dst_state) :
  loop names (DstFile g) = (Returned tt, d') ->
  d' = DstFile (foldl (overwritten_by disk src_dir) g
                  (List.filter (installable who disk src_dir) names)).
Proof.
  revert g. induction names as [|n rest IH]; intros g; [by intros [= <-]|].
  rewrite loop_cons. cbn [List.filter].
  destruct (pass n (DstFile g)) as [[[]|e] d1] eqn:Hp; [|done].
  destruct (installable who disk src_dir n) eqn:Hsel.
  2:{ rewrite pass_skip in Hp by done. injection Hp as <-. apply IH. }
  destruct (pass_copy_ok _ _ _ _ _ _ _ Hsel Hp) as (f & Hf & _ & Hw).
  cbn [after_makedirs makedirs_at write_target] in Hw.
  destruct (may_write who (f_mode g)); [|done]. injection Hw as <-.
  intros Hrest. rewrite (IH _ Hrest). cbn [foldl].
  unfold overwritten_by at 3. by rewrite Hf.
Qed.

(** A loop that raises stops in the pass of a selected entry: the calls
    made are those of the entries before it and its own. *)
Lemma loop_raised (names : list string) (d d' : dst_state) (e : exn) :
  loop names d = (Raised e, d') ->
  exists pre n post,
    names = pre ++ n :: post
    /\ installable who disk src_dir n = true
    /\ loop_calls who disk src_dir dst_dir names d
       = flat_map calls pre
         ++ [EvMakedirs dst_dir;
             EvLogInfo (os_path_join src_dir n) dst_dir;
             EvCopy (os_path_join src_dir n) dst_dir].
Proof.
  revert d. induction names as [|n rest IH]; intros d; [done|].
  rewrite loop_cons. cbn [loop_calls].
  destruct (pass n d) as [[[]|e1] d1] eqn:Hp.
  - intros Hrest. destruct (IH _ Hrest) as (pre & m & post & -> & Hm & ->).
    exists (n :: pre), m, post. repeat split; [done|].
    cbn [flat_map]. by rewrite app_assoc.
  - intros [= <- <-]. exists [], n, rest.
    destruct (installable who disk src_dir n) eqn:Hsel;
      [|by rewrite pass_skip in Hp].
    repeat split. unfold calls_for. rewrite Hsel. by rewrite app_nil_r.
Qed.

(** After a loop that completes, every selected entry is in the
    destination directory. *)
Lemma loop_completed_installed (names : list string) (d d1 : dst_state)
    (w : bool) (ch : gmap string node) (n : string) :
  NoDup names ->
  Forall (fun n => slash_free n = true) names ->
  loop names d = (Returned tt, d1) ->
  start_dir d = Some (w, ch) ->
  n ∈ names ->
  installable who disk src_dir n = true ->
  exists f ch1,
    disk !! os_path_join src_dir n = Some (RegFile f)
    /\ may_read who (f_mode f) = true
    /\ d1 = DstDir w ch1
    /\ ch1 !! n = Some (RegFile f).
Proof.
  intros Hnodup. revert d ch.
  induction Hnodup as [|n0 rest Hnotin _ IH]; intros d ch Hfree Hloop Hstart Hin
    Hsel; [by apply elem_of_nil in Hin|].
  apply Forall_cons in Hfree as [Hn0 Hfree].
  rewrite loop_cons in Hloop.
  destruct (pass n0 d) as [[[]|e] d_a] eqn:Hp; [|done].
  assert (after_makedirs dst_dir d = DstDir w ch) as Hmk.
  { destruct d as [[| |[]]| |]; cbn in Hstart; by simplify_eq. }
  destruct (installable who disk src_dir n0) eqn:Hsel0.
  - destruct (pass_copy_ok _ _ _ _ _ _ _ Hsel0 Hp) as (f & Hf & Hr & Hw).
    rewrite basename_join, Hmk in Hw by done. cbn [write_target] in Hw.
    assert (d_a = DstDir w (<[n0:=RegFile f]> ch)) as ->.
    { destruct (ch !! n0) as [[g|m ns]|];
        [destruct (may_write _ _)| |destruct w]; by simplify_eq. }
    apply elem_of_cons in Hin as [->|Hin].
    + destruct (loop_dir_frame who disk src_dir dst_dir rest w
                  (<[n0:=RegFile f]> ch) Hfree) as (ch1 & Hd & Hk).
      rewrite Hloop in Hd. cbn [snd] in Hd.
      exists f, ch1. repeat split; try done.
      by rewrite (Hk n0 Hnotin), lookup_insert_eq.
    + by eapply (IH _ _ Hfree Hloop).
  - rewrite pass_skip in Hp by done. injection Hp as <-.
    apply elem_of_cons in Hin as [->|Hin]; [congruence|].
    by eapply (IH _ _ Hfree Hloop).
Qed.

(** The loop run on a destination that already holds every selected
    entry: it changes nothing, and completes exactly when the caller may
    write every file it copies over. *)
Lemma loop_again (names : list string) (D : dst_state) :
  Forall (fun n => slash_free n = true) names ->
  (forall n, n ∈ names -> installable who disk src_dir n = true ->
     exists f w ch1,
       disk !! os_path_join src_dir n = Some (RegFile f)
       /\ may_read who (f_mode f) = true
       /\ D = DstDir w ch1
       /\ ch1 !! n = Some (RegFile f)) ->
  if forallb (rewritable who disk src_dir) names
  then loop names D = (Returned tt, D)
  else exists path, loop names D = (Raised (PermissionError path), D).
Proof.
  intros Hfree. induction Hfree as [|n rest Hn _ IH]; intros Hall; [done|].
  rewrite loop_cons. cbn [forallb]. unfold rewritable at 1.
  destruct (installable who disk src_dir n) eqn:Hsel; cbn [negb orb andb].
  2:{ rewrite pass_skip by done. apply IH. intros m Hm. apply Hall.
      by apply elem_of_cons; right. }
  destruct (Hall n ltac:(by apply elem_of_cons; left) Hsel)
    as (f & w & ch1 & Hf & Hr & -> & Hch).
  unfold pass_dst, copy_outcome.
  rewrite Hsel, Hf, Hr, basename_join by done.
  cbn [negb after_makedirs makedirs_at write_target]. rewrite Hch.
  destruct (may_write who (f_mode f)); cbn [andb]; [|by eexists].
  rewrite insert_id by done. apply IH. intros m Hm. apply Hall.
  by apply elem_of_cons; right.
Qed.

End install_loop_more.

Section install_more.

Variable who : caller.
Variable disk : gmap string node.
Variable get_dest_map : string -> string -> gmap string string.

Local Abbreviation install_src :=
  (InstallCommandExt_install_src_executables who disk get_dest_map).

(** X12.  When no entry of [build/bin] is executable or named [*.exe],
    the install step returns [None] and does nothing at all: no call is
    made, and the destination directory is not even created. *)
Theorem install_nothing_selected (self : manage_command) (ns : namespace)
    (st : proc) (bin : string) (mode : Z) (names : list string) :
  get_dest_map (layout ns) (prefix ns) !! "bin" = Some bin ->
  disk !! InstallCommandExt_build_bin self = Some (Directory mode names) ->
  Forall (fun n => installable who disk (InstallCommandExt_build_bin self) n
                   = false) names ->
  install_src self ns st = (Returned PyNone, st).
Proof.
  intros Hbin Hdir Hnone.
  rewrite (install_src_listed _ _ _ _ _ _ _ _ _ Hbin Hdir).
  destruct (loop_nothing_selected who disk _ (root ns +:+ bin) names (dst st)
              Hnone) as [-> ->].
  cbn [fst snd]. rewrite app_nil_r. by destruct st.
Qed.

(** X13.  On a destination that is a directory the install step, whether
    it completes or raises, leaves a directory that is as writable as
    before, still holds every name it held, and has every entry whose name
    is not listed in [build/bin] exactly as it was. *)
Theorem install_keeps_other_entries (self : manage_command)
    (ns : namespace) (st : proc) (bin : string) (mode : Z)
    (names : list string) (w : bool) (ch : gmap string node) :
  get_dest_map (layout ns) (prefix ns) !! "bin" = Some bin ->
  disk !! InstallCommandExt_build_bin self = Some (Directory mode names) ->
  Forall (fun n => slash_free n = true) names ->
  dst st = DstDir w ch ->
  exists ch',
    dst (snd (install_src self ns st)) = DstDir w ch'
    /\ (forall k, is_Some (ch !! k) -> is_Some (ch' !! k))
    /\ (forall k, k ∉ names -> ch' !! k = ch !! k).
Proof.
  intros Hbin Hdir Hfree Hdst.
  rewrite (install_src_listed _ _ _ _ _ _ _ _ _ Hbin Hdir). cbn [snd dst].
  rewrite Hdst.
  destruct (loop_dir_frame who disk (InstallCommandExt_build_bin self)
              (root ns +:+ bin) names w ch Hfree) as (ch' & Hd & Hk).
  exists ch'. split; [done|]. split; [|done].
  intros k. by eapply loop_dir_keeps.
Qed.

(** X14.  When the destination path holds a regular file, the
    [FileExistsError] of [os.makedirs] is swallowed and each copy goes onto
    that file: an install step that completes has replaced it with the last
    selected entry of [build/bin], and has left it alone when nothing was
    selected. *)
Theorem install_onto_regular_file (self : manage_command) (ns : namespace)
    (st st' : proc) (v : pyval) (bin : string) (mode : Z)
    (names : list string) (g : file) :
  get_dest_map (layout ns) (prefix ns) !! "bin" = Some bin ->
  disk !! InstallCommandExt_build_bin self = Some (Directory mode names) ->
  dst st = DstFile g ->
  install_src self ns st = (Returned v, st') ->
  let src_dir := InstallCommandExt_build_bin self in
  match last (List.filter (installable who disk src_dir) names) with
  | None => dst st' = DstFile g
  | Some n =>
      exists f, disk !! os_path_join src_dir n = Some (RegFile f)
                /\ dst st' = DstFile f
  end.
Proof.
  intros Hbin Hdir Hdst Hrun src_dir.
  rewrite (install_src_listed _ _ _ _ _ _ _ _ _ Hbin Hdir) in Hrun.
  fold src_dir in Hrun. rewrite Hdst in Hrun.
  destruct (loop_dst who disk src_dir (root ns +:+ bin) names (DstFile g))
    as [[[]|e] d1] eqn:Hloop; [|done].
  injection Hrun as _ <-. cbn [dst].
  rewrite (loop_completed_file _ _ _ _ _ _ _ Hloop).
  destruct (loop_completed _ _ _ _ _ _ _ Hloop) as [_ Hall].
  destruct (last _) as [n|] eqn:Hlast.
  - apply last_Some in Hlast as [sel Hsel]. rewrite Hsel, foldl_app.
    cbn [foldl]. unfold overwritten_by at 1.
    assert (In n (List.filter (installable who disk src_dir) names)) as Hin
      by (rewrite Hsel; apply in_or_app; right; by left).
    apply List.filter_In in Hin as [Hin Hn].
    rewrite Forall_forall in Hall.
    destruct (Hall n ltac:(by apply list_elem_of_In) Hn) as (f & Hf & _).
    rewrite Hf. by exists f.
  - apply last_None in Hlast. by rewrite Hlast.
Qed.

(** X15.  When the copy loop raises, the calls made are those of the
    selected entries before the one that failed followed by the three
    calls for that entry: the last log record names the entry whose copy
    raised, and nothing is called for the entries after it. *)
Theorem failed_install_logs_failing_entry (self : manage_command)
    (ns : namespace) (st st' : proc) (e : exn) (bin : string) (mode : Z)
    (names : list string) :
  get_dest_map (layout ns) (prefix ns) !! "bin" = Some bin ->
  disk !! InstallCommandExt_build_bin self = Some (Directory mode names) ->
  install_src self ns st = (Raised e, st') ->
  let src_dir := InstallCommandExt_build_bin self in
  let dst_dir := root ns +:+ bin in
  exists pre n post,
    names = pre ++ n :: post
    /\ installable who disk src_dir n = true
    /\ trace st'
       = trace st
         ++ flat_map (calls_for who disk src_dir dst_dir) pre
         ++ [EvMakedirs dst_dir;
             EvLogInfo (os_path_join src_dir n) dst_dir;
             EvCopy (os_path_join src_dir n) dst_dir].
Proof.
  intros Hbin Hdir Hrun src_dir dst_dir.
  rewrite (install_src_listed _ _ _ _ _ _ _ _ _ Hbin Hdir) in Hrun.
  fold src_dir dst_dir in Hrun.
  destruct (loop_dst who disk src_dir dst_dir names (dst st))
    as [[[]|e1] d1] eqn:Hloop; [done|].
  injection Hrun as _ <-. cbn [trace].
  destruct (loop_raised _ _ _ _ _ _ _ _ Hloop)
    as (pre & n & post & Hnames & Hn & ->).
  by exists pre, n, post.
Qed.

(** A second install step after one that completed into a directory. *)
Lemma reinstall_result (self : manage_command)
    (ns : namespace) (st st1 : proc) (bin : string) (mode : Z)
    (names : list string) (w : bool) (ch : gmap string node) :
  get_dest_map (layout ns) (prefix ns) !! "bin" = Some bin ->
  disk !! InstallCommandExt_build_bin self = Some (Directory mode names) ->
  listing_ok names ->
  start_dir (dst st) = Some (w, ch) ->
  install_src self ns st = (Returned PyNone, st1) ->
  if forallb (rewritable who disk (InstallCommandExt_build_bin self)) names
  then fst (install_src self ns st1) = Returned PyNone
  else exists path,
    fst (install_src self ns st1) = Raised (PermissionError path).
Proof.
  intros Hbin Hdir [Hnodup Hfree] Hstart Hrun.
  rewrite (install_src_listed _ _ _ _ _ _ _ _ _ Hbin Hdir) in Hrun.
  rewrite (install_src_listed _ _ _ _ _ _ _ _ _ Hbin Hdir).
  set (src_dir := InstallCommandExt_build_bin self) in *.
  set (dst_dir := root ns +:+ bin) in *.
  destruct (loop_dst who disk src_dir dst_dir names (dst st))
    as [[[]|e] d1] eqn:Hloop; [|done].
  injection Hrun as <-. cbn [fst snd dst].
  pose proof (loop_again who disk src_dir dst_dir names d1 Hfree) as Hagain.
  destruct (forallb _ names).
  - rewrite Hagain; [done|]. intros n Hin Hsel.
    destruct (loop_completed_installed _ _ _ _ _ _ _ _ _ n Hnodup Hfree Hloop
                Hstart Hin Hsel) as (f & ch1 & ? & ? & ? & ?).
    by exists f, w, ch1.
  - destruct Hagain as [path ->]; [|by exists path]. intros n Hin Hsel.
    destruct (loop_completed_installed _ _ _ _ _ _ _ _ _ n Hnodup Hfree Hloop
                Hstart Hin Hsel) as (f & ch1 & ? & ? & ? & ?).
    by exists f, w, ch1.
Qed.

(** What a completed install step copied, the superuser may write. *)
Lemma completed_rewritable_by_superuser (self : manage_command)
    (ns : namespace) (st st1 : proc) (bin : string) (mode : Z)
    (names : list string) :
  who = Superuser ->
  get_dest_map (layout ns) (prefix ns) !! "bin" = Some bin ->
  disk !! InstallCommandExt_build_bin self = Some (Directory mode names) ->
  install_src self ns st = (Returned PyNone, st1) ->
  forallb (rewritable who disk (InstallCommandExt_build_bin self)) names
  = true.
Proof.
  intros Hsu Hbin Hdir Hrun.
  rewrite (install_src_listed _ _ _ _ _ _ _ _ _ Hbin Hdir) in Hrun.
  destruct (loop_dst who disk _ _ names (dst st))
    as [[[]|e] d1] eqn:Hloop; [|done].
  destruct (loop_completed _ _ _ _ _ _ _ Hloop) as [_ Hall].
  apply forallb_forall. intros n Hin. rewrite Forall_forall in Hall.
  unfold rewritable.
  destruct (installable who disk _ n) eqn:Hsel; [|done].
  destruct (Hall n ltac:(by apply list_elem_of_In) Hsel) as (f & -> & _).
  by rewrite Hsu.
Qed.

End install_more.


(** * The extensions at work on the sample provider *)

Ltac decide_it := apply (bool_decide_unpack _); by vm_compute.

Lemma override_replaces_in_place_witness :
  first_base (InstallCommandExt stock_InstallCommand)
  = Some stock_InstallCommand
  /\ stock_InstallCommand <> stock_ManageCommand
  /\ list_index stock_InstallCommand stock_commands = Some 1%nat
  /\ exists patched,
       manage_py_extension stock_ManageCommand
         (InstallCommandExt stock_InstallCommand) stock_commands
       = (inr (InstallCommandExt stock_InstallCommand), patched)
       /\ length patched = length stock_commands
       /\ stock_commands !! 1%nat = Some stock_InstallCommand
       /\ (forall j, (j < 1)%nat ->
           stock_commands !! j <> Some stock_InstallCommand)
       /\ patched !! 1%nat = Some (InstallCommandExt stock_InstallCommand)
       /\ forall j, j <> 1%nat -> patched !! j = stock_commands !! j.
Proof.
  assert (stock_InstallCommand <> stock_ManageCommand) as Hne by done.
  split; [reflexivity|]. split; [exact Hne|]. split; [by vm_compute|].
  exact (override_replaces_in_place stock_ManageCommand
           (InstallCommandExt stock_InstallCommand) stock_InstallCommand
           stock_commands 1 eq_refl Hne eq_refl).
Defined.

Lemma register_needs_registered_base_witness :
  first_base MyInstall = Some stock_InstallCommand
  /\ (fst (manage_py_extension stock_ManageCommand MyInstall stock_commands)
      = inr MyInstall
      <-> stock_InstallCommand = stock_ManageCommand
          \/ stock_InstallCommand ∈ stock_commands)
  /\ (stock_InstallCommand <> stock_ManageCommand ->
      stock_InstallCommand ∉ stock_commands ->
      manage_py_extension stock_ManageCommand MyInstall stock_commands
      = (inl ValueError_not_in_list, stock_commands)).
Proof.
  split; [reflexivity|].
  exact (register_needs_registered_base stock_ManageCommand MyInstall
           stock_InstallCommand stock_commands eq_refl).
Defined.

Lemma second_override_raises_witness :
  NoDup stock_commands
  /\ stock_InstallCommand ∈ stock_commands
  /\ stock_InstallCommand <> stock_ManageCommand
  /\ fst (manage_py_extension stock_ManageCommand
            (InstallCommandExt stock_InstallCommand) stock_commands)
     = inr (InstallCommandExt stock_InstallCommand)
  /\ manage_py_extension stock_ManageCommand MyInstall
       (snd (manage_py_extension stock_ManageCommand
               (InstallCommandExt stock_InstallCommand) stock_commands))
     = (inl ValueError_not_in_list,
        snd (manage_py_extension stock_ManageCommand
               (InstallCommandExt stock_InstallCommand) stock_commands)).
Proof.
  assert (NoDup stock_commands) as Hnodup by decide_it.
  assert (stock_InstallCommand ∈ stock_commands) as Hin by decide_it.
  assert (stock_InstallCommand <> stock_ManageCommand) as Hne by done.
  split; [exact Hnodup|]. split; [exact Hin|]. split; [exact Hne|].
  exact (second_override_raises stock_ManageCommand stock_InstallCommand
           stock_commands "InstallCommandExt" "MyInstall" None None
           Hnodup Hin Hne).
Defined.

Lemma override_of_override_witness :
  list_index stock_InstallCommand stock_commands = Some 1%nat
  /\ stock_InstallCommand <> stock_ManageCommand
  /\ InstallCommandExt stock_InstallCommand <> stock_ManageCommand
  /\ (InstallCommandExt stock_InstallCommand ∉ stock_commands)
  /\ manage_py_extension stock_ManageCommand
       (subclass "MyInstall" None (InstallCommandExt stock_InstallCommand))
       (snd (manage_py_extension stock_ManageCommand
               (InstallCommandExt stock_InstallCommand) stock_commands))
     = (inr (subclass "MyInstall" None
               (InstallCommandExt stock_InstallCommand)),
        <[1%nat := subclass "MyInstall" None
                     (InstallCommandExt stock_InstallCommand)]>
          stock_commands).
Proof.
  assert (stock_InstallCommand <> stock_ManageCommand) as Hne by done.
  assert (InstallCommandExt stock_InstallCommand <> stock_ManageCommand)
    as Hne1 by done.
  assert (InstallCommandExt stock_InstallCommand ∉ stock_commands) as Hfresh
    by decide_it.
  split; [by vm_compute|]. split; [exact Hne|]. split; [exact Hne1|].
  split; [exact Hfresh|].
  exact (override_of_override stock_ManageCommand stock_InstallCommand
           stock_commands 1 "InstallCommandExt" "MyInstall" None None
           eq_refl Hne Hne1 Hfresh).
Defined.

Lemma import_patches_registry_witness :
  list_index stock_SourceDistributionCommand stock_commands = Some 2%nat
  /\ list_index stock_InstallCommand stock_commands = Some 1%nat
  /\ import_manage_ext stock_ManageCommand stock_InstallCommand
       stock_SourceDistributionCommand stock_commands
     = (None,
        [stock_InfoCommand;
         InstallCommandExt stock_InstallCommand;
         SourceDistributionCommandExt stock_SourceDistributionCommand;
         BuildCommand stock_ManageCommand;
         CleanCommand stock_ManageCommand]).
Proof.
  split; [by vm_compute|]. split; [by vm_compute|].
  destruct (import_patches_registry stock_ManageCommand stock_InstallCommand
              stock_SourceDistributionCommand stock_commands 2 1
              eq_refl eq_refl ltac:(done) ltac:(done) ltac:(done)
              ltac:(done))
    as (registry & Himport & _).
  rewrite Himport. f_equal. injection Himport as <-. reflexivity.
Defined.

Lemma import_needs_stock_commands_witness :
  stock_SourceDistributionCommand <> stock_ManageCommand
  /\ stock_InstallCommand <> stock_ManageCommand
  /\ stock_InstallCommand
     <> SourceDistributionCommandExt stock_SourceDistributionCommand
  /\ (stock_SourceDistributionCommand ∉ short_commands)
  /\ import_manage_ext stock_ManageCommand stock_InstallCommand
       stock_SourceDistributionCommand short_commands
     = (Some ValueError_not_in_list, short_commands).
Proof.
  assert (stock_SourceDistributionCommand ∉ short_commands) as Hnot
    by decide_it.
  split; [done|]. split; [done|]. split; [done|]. split; [exact Hnot|].
  exact (proj1 (import_needs_stock_commands stock_ManageCommand
                  stock_InstallCommand stock_SourceDistributionCommand
                  short_commands ltac:(done) ltac:(done) ltac:(done))
           Hnot).
Defined.

Lemma keywords_go_to_build_and_clean_witness :
  list_index stock_SourceDistributionCommand stock_commands = Some 2%nat
  /\ list_index stock_InstallCommand stock_commands = Some 1%nat
  /\ Forall (fun c => getattr_SUPPORTS_KEYWORDS c = false) stock_commands
  /\ exists insts,
       add_subcommands "/p" sample_keywords
         (snd (import_manage_ext stock_ManageCommand stock_InstallCommand
                 stock_SourceDistributionCommand stock_commands))
       = insts
         ++ [ {| inst_class := BuildCommand stock_ManageCommand;
                 inst_location := "/p";
                 inst_keywords := Some sample_keywords |};
              {| inst_class := CleanCommand stock_ManageCommand;
                 inst_location := "/p";
                 inst_keywords := Some sample_keywords |} ]
       /\ map inst_class insts
          = <[1%nat := InstallCommandExt stock_InstallCommand]>
              (<[2%nat := SourceDistributionCommandExt
                            stock_SourceDistributionCommand]>
                 stock_commands)
       /\ Forall (fun c => inst_keywords c = None
                           /\ inst_location c = "/p") insts.
Proof.
  assert (Forall (fun c => getattr_SUPPORTS_KEYWORDS c = false)
            stock_commands) as Hstock by (by repeat constructor).
  split; [by vm_compute|]. split; [by vm_compute|]. split; [exact Hstock|].
  exact (keywords_go_to_build_and_clean stock_ManageCommand
           stock_InstallCommand stock_SourceDistributionCommand
           stock_commands 2 1 "/p" sample_keywords eq_refl eq_refl
           ltac:(done) ltac:(done) ltac:(done) ltac:(done) Hstock).
Defined.

Lemma invoke_returns_1_or_None_witness :
  invoke no_gettext sample_disk sample_spawn Build
    (with_cmd "build_cmd" (Some "exit 7")) ns_real fresh
  = (Returned PyNone, logged fresh [EvSpawn (Shell "exit 7") "/p"])
  /\ ((PyNone = PyInt 1
       /\ (configured_cmd Build (with_cmd "build_cmd" (Some "exit 7")) = None
           \/ os_path_isdir sample_disk
                (os_path_join
                   (location (with_cmd "build_cmd" (Some "exit 7"))) "src")
              = false))
      \/ (PyNone = PyNone
          /\ exists cmd,
               configured_cmd Build (with_cmd "build_cmd" (Some "exit 7"))
               = Some cmd
               /\ os_path_isdir sample_disk
                    (os_path_join
                       (location (with_cmd "build_cmd" (Some "exit 7")))
                       "src")
                  = true)).
Proof.
  assert (invoke no_gettext sample_disk sample_spawn Build
            (with_cmd "build_cmd" (Some "exit 7")) ns_real fresh
          = (Returned PyNone, logged fresh [EvSpawn (Shell "exit 7") "/p"]))
    as Hrun by (by vm_compute).
  split; [exact Hrun|].
  exact (invoke_returns_1_or_None no_gettext sample_disk sample_spawn Build
           (with_cmd "build_cmd" (Some "exit 7")) ns_real fresh _ PyNone
           Hrun).
Defined.

Lemma clean_dry_run_witness :
  dry_run ns_dry = true
  /\ let r := CleanCommand_invoked no_gettext sample_disk sample_spawn
                sample ns_dry fresh in
     dst (snd r) = dst fresh
     /\ exists evs : list event,
          trace (snd r) = trace fresh ++ evs
          /\ forallb clean_dry_run_event evs = true
          /\ forallb (fun ev => negb (mutates_filesystem ev)) evs = true.
Proof.
  split; [reflexivity|].
  exact (clean_dry_run_touches_nothing no_gettext sample_disk sample_spawn
           sample ns_dry fresh eq_refl).
Defined.


Lemma install_nothing_selected_witness :
  sample_dest_map (layout ns_real) (prefix ns_real) !! "bin"
  = Some sample_dst_dir
  /\ plain_disk !! InstallCommandExt_build_bin sample
     = Some (Directory 493 ["notes.txt"])
  /\ Forall (fun n => installable Owner plain_disk
                        (InstallCommandExt_build_bin sample) n = false)
       ["notes.txt"]
  /\ InstallCommandExt_install_src_executables Owner plain_disk sample_dest_map
       sample ns_real fresh
     = (Returned PyNone, fresh).
Proof.
  assert (sample_dest_map (layout ns_real) (prefix ns_real) !! "bin"
          = Some sample_dst_dir) as Hbin by (by vm_compute).
  assert (plain_disk !! InstallCommandExt_build_bin sample
          = Some (Directory 493 ["notes.txt"])) as Hdir by (by vm_compute).
  assert (Forall (fun n => installable Owner plain_disk
                             (InstallCommandExt_build_bin sample) n = false)
            ["notes.txt"]) as Hnone
    by (repeat constructor; by vm_compute).
  split; [exact Hbin|]. split; [exact Hdir|]. split; [exact Hnone|].
  exact (install_nothing_selected Owner plain_disk sample_dest_map sample ns_real
           fresh sample_dst_dir 493 ["notes.txt"] Hbin Hdir Hnone).
Defined.

Lemma install_keeps_other_entries_witness :
  sample_dest_map (layout ns_real) (prefix ns_real) !! "bin"
  = Some sample_dst_dir
  /\ sample_disk !! InstallCommandExt_build_bin sample
     = Some (Directory 493 ["hello"; "notes.txt"; "tool.exe"])
  /\ Forall (fun n => slash_free n = true) ["hello"; "notes.txt"; "tool.exe"]
  /\ dst populated = DstDir true (<["README" := RegFile notes]> ∅)
  /\ exists ch',
       dst (snd (InstallCommandExt_install_src_executables Owner sample_disk
                   sample_dest_map sample ns_real populated))
       = DstDir true ch'
       /\ (forall k, is_Some ((<["README" := RegFile notes]> ∅ : gmap string node) !! k) ->
           is_Some (ch' !! k))
       /\ (forall k, k ∉ ["hello"; "notes.txt"; "tool.exe"] ->
           ch' !! k = (<["README" := RegFile notes]> ∅ : gmap string node) !! k).
Proof.
  assert (sample_dest_map (layout ns_real) (prefix ns_real) !! "bin"
          = Some sample_dst_dir) as Hbin by (by vm_compute).
  assert (sample_disk !! InstallCommandExt_build_bin sample
          = Some (Directory 493 ["hello"; "notes.txt"; "tool.exe"])) as Hdir
    by (by vm_compute).
  assert (Forall (fun n => slash_free n = true)
            ["hello"; "notes.txt"; "tool.exe"]) as Hfree
    by (by repeat constructor).
  split; [exact Hbin|]. split; [exact Hdir|]. split; [exact Hfree|].
  split; [reflexivity|].
  exact (install_keeps_other_entries Owner sample_disk sample_dest_map sample
           ns_real populated sample_dst_dir 493
           ["hello"; "notes.txt"; "tool.exe"] true
           (<["README" := RegFile notes]> ∅) Hbin Hdir Hfree eq_refl).
Defined.

Lemma install_onto_regular_file_witness :
  sample_dest_map (layout ns_real) (prefix ns_real) !! "bin"
  = Some sample_dst_dir
  /\ sample_disk !! InstallCommandExt_build_bin sample
     = Some (Directory 493 ["hello"; "notes.txt"; "tool.exe"])
  /\ dst file_in_the_way = DstFile notes
  /\ fst (InstallCommandExt_install_src_executables Owner sample_disk
            sample_dest_map sample ns_real file_in_the_way)
     = Returned PyNone
  /\ dst (snd (InstallCommandExt_install_src_executables Owner sample_disk
                 sample_dest_map sample ns_real file_in_the_way))
     = DstFile tool_exe.
Proof.
  assert (sample_dest_map (layout ns_real) (prefix ns_real) !! "bin"
          = Some sample_dst_dir) as Hbin by (by vm_compute).
  assert (sample_disk !! InstallCommandExt_build_bin sample
          = Some (Directory 493 ["hello"; "notes.txt"; "tool.exe"])) as Hdir
    by (by vm_compute).
  assert (InstallCommandExt_install_src_executables Owner sample_disk
            sample_dest_map sample ns_real file_in_the_way
          = (Returned PyNone,
             snd (InstallCommandExt_install_src_executables Owner sample_disk
                    sample_dest_map sample ns_real file_in_the_way)))
    as Hrun by (by vm_compute).
  split; [exact Hbin|]. split; [exact Hdir|]. split; [reflexivity|].
  split; [by rewrite Hrun|].
  pose proof (install_onto_regular_file Owner sample_disk sample_dest_map sample
                ns_real file_in_the_way _ PyNone sample_dst_dir 493
                ["hello"; "notes.txt"; "tool.exe"] notes Hbin Hdir eq_refl
                Hrun) as Hlast.
  vm_compute in Hlast. destruct Hlast as (f & [= <-] & Hdst).
  vm_compute. exact Hdst.
Defined.

Lemma failed_install_witness :
  sample_dest_map (layout ns_real) (prefix ns_real) !! "bin"
  = Some sample_dst_dir
  /\ plugins_disk !! InstallCommandExt_build_bin sample
     = Some (Directory 493 ["plugins"; "hello"])
  /\ fst (InstallCommandExt_install_src_executables Owner plugins_disk
            sample_dest_map sample ns_real fresh)
     = Raised (IsADirectoryError "/p/build/bin/plugins")
  /\ exists pre n post,
       ["plugins"; "hello"] = pre ++ n :: post
       /\ installable Owner plugins_disk (InstallCommandExt_build_bin sample) n
          = true
       /\ trace (snd (InstallCommandExt_install_src_executables Owner plugins_disk
                        sample_dest_map sample ns_real fresh))
          = trace fresh
            ++ flat_map (calls_for Owner plugins_disk
                           (InstallCommandExt_build_bin sample)
                           (root ns_real +:+ sample_dst_dir)) pre
            ++ [EvMakedirs (root ns_real +:+ sample_dst_dir);
                EvLogInfo (os_path_join (InstallCommandExt_build_bin sample) n)
                  (root ns_real +:+ sample_dst_dir);
                EvCopy (os_path_join (InstallCommandExt_build_bin sample) n)
                  (root ns_real +:+ sample_dst_dir)].
Proof.
  assert (sample_dest_map (layout ns_real) (prefix ns_real) !! "bin"
          = Some sample_dst_dir) as Hbin by (by vm_compute).
  assert (plugins_disk !! InstallCommandExt_build_bin sample
          = Some (Directory 493 ["plugins"; "hello"])) as Hdir
    by (by vm_compute).
  assert (InstallCommandExt_install_src_executables Owner plugins_disk
            sample_dest_map sample ns_real fresh
          = (Raised (IsADirectoryError "/p/build/bin/plugins"),
             snd (InstallCommandExt_install_src_executables Owner plugins_disk
                    sample_dest_map sample ns_real fresh)))
    as Hrun by (by vm_compute).
  split; [exact Hbin|]. split; [exact Hdir|]. split; [by rewrite Hrun|].
  exact (failed_install_logs_failing_entry Owner plugins_disk sample_dest_map
           sample ns_real fresh _ _ sample_dst_dir 493 ["plugins"; "hello"]
           Hbin Hdir Hrun).
Defined.


(** C4.  [clean_cmd] (and likewise [build_cmd]) is a command with a shell
    comment that holds an apostrophe, [src/] is present.  In real mode the
    string is handed to the shell as it is.  In a dry run [shlex.split],
    called only to recognise the make invocation, raises [ValueError] on
    the apostrophe before anything is printed: the dry run does not print
    the command. *)
Theorem dry_run_raises_on_shell_comment :
  shlex.split commented_cmd = Raised (ValueError "No closing quotation")
  /\ CleanCommand_invoked no_gettext sample_disk sample_spawn
       (with_cmd "clean_cmd" (Some commented_cmd)) ns_real fresh
     = (Returned PyNone, logged fresh [EvSpawn (Shell commented_cmd) "/p"])
  /\ CleanCommand_invoked no_gettext sample_disk sample_spawn
       (with_cmd "clean_cmd" (Some commented_cmd)) ns_dry fresh
     = (Raised (ValueError "No closing quotation"), fresh)
  /\ BuildCommand_invoked no_gettext sample_disk sample_spawn
       (with_cmd "build_cmd" (Some commented_cmd)) ns_real fresh
     = (Returned PyNone, logged fresh [EvSpawn (Shell commented_cmd) "/p"])
  /\ BuildCommand_invoked no_gettext sample_disk sample_spawn
       (with_cmd "build_cmd" (Some commented_cmd)) ns_dry fresh
     = (Raised (ValueError "No closing quotation"), fresh).
Proof. repeat split; by vm_compute. Qed.
